(** * Decision Control Plane: the advisory analyzer and the decision endpoint

    A shallow embedding of [AIAnalyzer] (constructor, [buildPrompt],
    [callProvider], [extractContent], [parseResponse], [analyze],
    [combineDecision]) and of the [POST /decide] handler of
    [decisionRoutes], followed by the properties the specification states
    about them.  The status report of the analyzer, the CORS middleware,
    the helpers of the metrics module and the submit handlers of the
    dashboard are embedded the same way, with properties read off their
    code.

    Conventions of the embedding.
    - Values that come from outside the program (provider replies, decoded
      payloads, the request body) are untyped JavaScript values,
      [JsValue].  Values the program builds itself (configuration, insight,
      parsed advice, final decision) are records whose optional fields are
      [option]s: [None] stands for an absent property, which reads as
      [undefined].
    - A JavaScript number is [JsNum]: a rational, an infinity or NaN.
      Every binary64 value is one of these, and the program only compares
      numbers and takes minima and maxima, which are exact.  Decimal
      literals of the source are written as the rational they spell; the
      two zeros are not told apart.
    - A string is a [string] whose characters stand for code units of the
      ASCII range.
    - Host functions that are not code of the repository ([JSON.parse],
      [JSON.stringify], number-to-string conversion) are parameters of the
      section that uses them.
    - Exceptions are the [Throw] case of [Completion]; effects (the clock,
      the HTTP client, the console) are threaded through a [World]. *)

From Stdlib Require Import String Ascii List Bool ZArith QArith Lia.
Import ListNotations.

Local Close Scope Q_scope.
Local Open Scope string_scope.
Local Open Scope list_scope.

(* ================================================================== *)
(** * JavaScript numbers *)
(* ================================================================== *)

Inductive JsNum : Type :=
| NaN
| NegInf
| Fin (q : Q)
| PosInf.

(** [a >= b] on numbers: [false] as soon as one side is NaN. *)
Definition js_ge (a b : JsNum) : bool :=
  match a, b with
  | NaN, _ | _, NaN => false
  | PosInf, _ => true
  | _, NegInf => true
  | NegInf, _ => false
  | Fin _, PosInf => false
  | Fin x, Fin y => Qle_bool y x
  end.

(** [a < b] on numbers: [false] as soon as one side is NaN. *)
Definition js_lt (a b : JsNum) : bool :=
  match a, b with
  | NaN, _ | _, NaN => false
  | _, NegInf => false
  | NegInf, _ => true
  | PosInf, _ => false
  | Fin _, PosInf => true
  | Fin x, Fin y => negb (Qle_bool y x)
  end.

(** [Math.min(a, b)] and [Math.max(a, b)]. *)
Definition Math_min (a b : JsNum) : JsNum :=
  match a, b with
  | NaN, _ | _, NaN => NaN
  | _, _ => if js_ge b a then a else b
  end.

Definition Math_max (a b : JsNum) : JsNum :=
  match a, b with
  | NaN, _ | _, NaN => NaN
  | _, _ => if js_ge a b then a else b
  end.

(** Truthiness of a number: [0] and NaN are falsy. *)
Definition num_truthy (n : JsNum) : bool :=
  match n with
  | NaN => false
  | Fin q => negb (Qeq_bool q 0%Q)
  | NegInf | PosInf => true
  end.

Definition num_of_Z (z : Z) : JsNum := Fin (inject_Z z).

(** A number of the closed interval from 0 to 1. *)
Definition in_unit_interval (n : JsNum) : Prop :=
  exists q : Q, n = Fin q /\ (0 <= q)%Q /\ (q <= 1)%Q.

(* ================================================================== *)
(** * JavaScript values *)
(* ================================================================== *)

#[local] Set Warnings "-register-all".

(** An object is the list of its own properties in insertion order; a
    property is read at its first binding. *)
Inductive JsValue : Type :=
| JUndefined
| JNull
| JBool (b : bool)
| JNumber (n : JsNum)
| JString (s : string)
| JArray (items : list JsValue)
| JObject (fields : list (string * JsValue)).

Inductive JsError : Type :=
| TypeError                       (* raised by the runtime *)
| SyntaxError                     (* raised by JSON.parse *)
| Error (message : string)        (* [new Error(message)] *)
| Rejected (message : string).    (* a rejected HTTP request *)

(** The outcome of evaluating an expression that may throw. *)
Inductive Completion (A : Type) : Type :=
| Return (a : A)
| Throw (e : JsError).

Arguments Return {A} a.
Arguments Throw {A} e.

Definition bindC {A B} (c : Completion A) (k : A -> Completion B) : Completion B :=
  match c with
  | Return a => k a
  | Throw e => Throw e
  end.

Declare Scope completion_scope.
Delimit Scope completion_scope with comp.
Notation "x <- c ;; k" := (bindC c (fun x => k))
  (at level 61, c at next level, right associativity) : completion_scope.

(** [try { body } catch { handler }] around a pure computation. *)
Definition try_catchC {A} (body : Completion A) (handler : JsError -> A) : A :=
  match body with
  | Return a => a
  | Throw e => handler e
  end.

Fixpoint mapC {A B} (f : A -> Completion B) (l : list A) : Completion (list B) :=
  match l with
  | [] => Return []
  | x :: rest =>
      (y <- f x ;;
       ys <- mapC f rest ;;
       Return (y :: ys))%comp
  end.

Definition truthy (v : JsValue) : bool :=
  match v with
  | JUndefined | JNull => false
  | JBool b => b
  | JNumber n => num_truthy n
  | JString s => negb (s =? "")
  | JArray _ | JObject _ => true
  end.

(** [a || b]. *)
Definition js_or (a b : JsValue) : JsValue := if truthy a then a else b.

Definition nullish (v : JsValue) : bool :=
  match v with
  | JUndefined | JNull => true
  | _ => false
  end.

Definition lookup (k : string) (fields : list (string * JsValue)) : JsValue :=
  match find (fun kv => fst kv =? k) fields with
  | Some kv => snd kv
  | None => JUndefined
  end.

(** [v.k] for the property names the program reads ([data] fields of a
    reply, fields of a decoded payload): none of them is a built-in
    property of arrays, strings, numbers or booleans, so only objects
    answer with something else than [undefined].  Reading a property of
    [undefined] or [null] throws. *)
Definition get_prop (v : JsValue) (k : string) : Completion JsValue :=
  match v with
  | JUndefined | JNull => Throw TypeError
  | JObject fields => Return (lookup k fields)
  | _ => Return JUndefined
  end.

(** [v[0]]. *)
Definition get_index0 (v : JsValue) : Completion JsValue :=
  match v with
  | JUndefined | JNull => Throw TypeError
  | JArray items => Return (hd JUndefined items)
  | JString (String c _) => Return (JString (String c ""))
  | JObject fields => Return (lookup "0" fields)
  | _ => Return JUndefined
  end.

(** One link [v?.access] of an optional chain. *)
Definition opt_chain (v : JsValue) (access : JsValue -> Completion JsValue)
  : Completion JsValue :=
  if nullish v then Return JUndefined else access v.

(** [typeof v === "number"]. *)
Definition is_number (v : JsValue) : bool :=
  match v with
  | JNumber _ => true
  | _ => false
  end.

(** The values [JSON.parse] can return hold neither [undefined] nor NaN. *)
Fixpoint is_json (v : JsValue) : bool :=
  match v with
  | JUndefined => false
  | JNumber NaN => false
  | JArray items => forallb is_json items
  | JObject fields => forallb (fun kv => is_json (snd kv)) fields
  | _ => true
  end.

(* ================================================================== *)
(** * Strings *)
(* ================================================================== *)

Definition is_whitespace (c : ascii) : bool :=
  let n := nat_of_ascii c in
  ((9 <=? n)%nat && (n <=? 13)%nat) || (n =? 32)%nat.

Fixpoint trimStart (s : string) : string :=
  match s with
  | String c rest => if is_whitespace c then trimStart rest else s
  | EmptyString => EmptyString
  end.

Fixpoint trimEnd (s : string) : string :=
  match s with
  | String c rest =>
      let rest' := trimEnd rest in
      if is_whitespace c && (rest' =? "") then "" else String c rest'
  | EmptyString => EmptyString
  end.

(** [s.trim()]. *)
Definition trim (s : string) : string := trimEnd (trimStart s).

(** [s.replace(/```json|```/g, "")]: a left-to-right scan that deletes
    every fence, trying the longer alternative first.  [skip] counts the
    characters of a fence still to be dropped. *)
Fixpoint strip_fences_from (skip : nat) (s : string) : string :=
  match s with
  | EmptyString => EmptyString
  | String c rest =>
      match skip with
      | S k => strip_fences_from k rest
      | O =>
          if prefix "```json" s then strip_fences_from 6 rest
          else if prefix "```" s then strip_fences_from 2 rest
          else String c (strip_fences_from 0 rest)
      end
  end.

Definition strip_fences (s : string) : string := strip_fences_from 0 s.

(* ================================================================== *)
(** * Data model *)
(* ================================================================== *)

(** The three strings ["ALLOW"], ["DENY"], ["REVIEW"]. *)
Inductive Recommendation : Type := ALLOW | DENY | REVIEW.

(** The rule outcomes ["SAFE_ALLOW"], ["SAFE_DENY"], ["GREY_ZONE"]. *)
Inductive RuleOutcome : Type := SAFE_ALLOW | SAFE_DENY | GREY_ZONE.

Inductive Source : Type :=
| RULE
| RULE_ABSOLUTE
| AI_RECOMMENDED
| AI_FLAGGED_REVIEW
| AI_UNAVAILABLE
| AI_UNCERTAIN.

Record AIProvider : Type := {
  name : string;
  apiUrl : string;
  apiKey : string;
  model : string
}.

(** The argument of the constructor; [None] is a property left out. *)
Record Config : Type := {
  cfg_enabled : option bool;
  cfg_providers : option (list AIProvider);
  cfg_timeout : option JsNum;
  cfg_confidenceThreshold : option JsNum
}.

Record AIAnalyzer : Type := {
  enabled : bool;
  providers : list AIProvider;
  timeout : JsNum;
  confidenceThreshold : JsNum
}.

(** What [parseResponse] returns. *)
Record ParsedAdvice : Type := {
  pa_recommendation : Recommendation;
  pa_confidence : JsNum;
  pa_reasoning : JsValue;
  pa_riskFactors : JsValue;
  pa_mitigatingFactors : JsValue
}.

(** An insight object; every property but the two flags may be absent. *)
Record AIInsight : Type := {
  analyzed : bool;
  provider : option string;
  insight_model : option string;
  analysisTimeMs : option Z;
  meetsConfidenceThreshold : bool;
  recommendation : option Recommendation;
  confidence : option JsNum;
  reasoning : JsValue;
  riskFactors : JsValue;
  mitigatingFactors : JsValue;
  reason : option string
}.

(** What [combineDecision] returns; [fd_confidence] is [None] when the
    property is absent or [undefined]. *)
Record FinalDecision : Type := {
  finalDecision : option Recommendation;
  source : Source;
  fd_confidence : option JsNum
}.

(** The second argument of [analyze], the result of the rule evaluation:
    an object, of which only [evaluationPath] is read ([JUndefined] when
    it has none). *)
Record RuleContext : Type := {
  evaluationPath : JsValue
}.

(* ================================================================== *)
(** * Constructor *)
(* ================================================================== *)

Definition empty_config : Config :=
  {| cfg_enabled := None; cfg_providers := None;
     cfg_timeout := None; cfg_confidenceThreshold := None |}.

(** [x || d] for an optional boolean, an optional array (an array is
    truthy even when empty) and an optional number. *)
Definition bool_or (x : option bool) (d : bool) : bool :=
  match x with
  | Some true => true
  | _ => d
  end.

Definition array_or {A} (x : option (list A)) (d : list A) : list A :=
  match x with
  | Some l => l
  | None => d
  end.

Definition num_or (x : option JsNum) (d : JsNum) : JsNum :=
  match x with
  | Some n => if num_truthy n then n else d
  | None => d
  end.

(** [new AIAnalyzer(config)]; [None] is a call without argument. *)
Definition new_AIAnalyzer (config : option Config) : AIAnalyzer :=
  let config := match config with Some c => c | None => empty_config end in
  {| enabled := bool_or (cfg_enabled config) false;
     providers := array_or (cfg_providers config) [];
     timeout := num_or (cfg_timeout config) (num_of_Z 5000);
     confidenceThreshold := num_or (cfg_confidenceThreshold config) (Fin (7 # 10)%Q) |}.

(* ================================================================== *)
(** * Decision combine *)
(* ================================================================== *)

(** [insight.confidence >= threshold]; an absent confidence converts to
    NaN. *)
Definition confidence_ge (c : option JsNum) (threshold : JsNum) : bool :=
  match c with
  | Some n => js_ge n threshold
  | None => false
  end.

(** [insight.recommendation === "DENY"]. *)
Definition is_DENY (r : option Recommendation) : bool :=
  match r with
  | Some DENY => true
  | _ => false
  end.


Definition decision (d : Recommendation) (s : Source) : FinalDecision :=
  {| finalDecision := Some d; source := s; fd_confidence := None |}.

Definition combineDecision (self : AIAnalyzer) (ruleOutcome : RuleOutcome)
    (aiInsight : option AIInsight) : FinalDecision :=
  match ruleOutcome with
  | SAFE_DENY => decision DENY RULE_ABSOLUTE
  | SAFE_ALLOW =>
      match aiInsight with
      | Some i =>
          if analyzed i && is_DENY (recommendation i)
             && confidence_ge (confidence i) (confidenceThreshold self)
          then decision REVIEW AI_FLAGGED_REVIEW
          else decision ALLOW RULE
      | None => decision ALLOW RULE
      end
  | GREY_ZONE =>
      match aiInsight with
      | Some i =>
          if negb (analyzed i) then decision REVIEW AI_UNAVAILABLE
          else if meetsConfidenceThreshold i then
            {| finalDecision := recommendation i;
               source := AI_RECOMMENDED;
               fd_confidence := confidence i |}
          else decision REVIEW AI_UNCERTAIN
      | None => decision REVIEW AI_UNAVAILABLE
      end
  end.

(* ================================================================== *)
(** * Parsing *)
(* ================================================================== *)

(** [["ALLOW", "DENY", "REVIEW"].includes(v) ? v : "REVIEW"]. *)
Definition validate_recommendation (v : JsValue) : Recommendation :=
  match v with
  | JString s =>
      if s =? "ALLOW" then ALLOW
      else if s =? "DENY" then DENY
      else REVIEW
  | _ => REVIEW
  end.

(** [typeof v === "number" ? Math.max(0, Math.min(1, v)) : 0.5]. *)
Definition clamp_confidence (v : JsValue) : JsNum :=
  match v with
  | JNumber n => Math_max (num_of_Z 0) (Math_min (num_of_Z 1) n)
  | _ => Fin (1 # 2)%Q
  end.

Definition invalid_response : ParsedAdvice :=
  {| pa_recommendation := REVIEW;
     pa_confidence := num_of_Z 0;
     pa_reasoning := JString "Invalid AI response";
     pa_riskFactors := JArray [];
     pa_mitigatingFactors := JArray [] |}.

(** The object literal built from a decoded payload; its property reads
    throw when the payload is [null]. *)
Definition advice_of_payload (parsed : JsValue) : Completion ParsedAdvice :=
  (rec <- get_prop parsed "recommendation" ;;
   conf <- get_prop parsed "confidence" ;;
   reas <- get_prop parsed "reasoning" ;;
   risk <- get_prop parsed "risk_factors" ;;
   mitig <- get_prop parsed "mitigating_factors" ;;
   Return {| pa_recommendation := validate_recommendation rec;
             pa_confidence := clamp_confidence conf;
             pa_reasoning := js_or reas (JString "");
             pa_riskFactors := js_or risk (JArray []);
             pa_mitigatingFactors := js_or mitig (JArray []) |})%comp.

(** [raw.replace(/```json|```/g, "").trim()]: only a string has a
    [replace] method; on any other reply the call throws. *)
Definition clean (raw : JsValue) : Completion string :=
  match raw with
  | JString s => Return (trim (strip_fences s))
  | _ => Throw TypeError
  end.

Section Parsing.

(** [JSON.parse]: [None] when it throws a SyntaxError. *)
Variable JSON_parse : string -> option JsValue.

Definition decode (cleaned : string) : Completion JsValue :=
  match JSON_parse cleaned with
  | Some parsed => Return parsed
  | None => Throw SyntaxError
  end.

Definition parseResponse (raw : JsValue) : ParsedAdvice :=
  try_catchC
    (cleaned <- clean raw ;;
     parsed <- decode cleaned ;;
     advice_of_payload parsed)%comp
    (fun _ => invalid_response).

End Parsing.

(* ================================================================== *)
(** * Effects: clock, HTTP client, console *)
(* ================================================================== *)

(** What [axios.post(url, body, {headers, timeout})] is called with. *)
Record HttpRequest : Type := {
  req_url : string;
  req_body : JsValue;
  req_headers : list (string * string);
  req_timeout : JsNum
}.

Inductive Event : Type :=
| Posted (request : HttpRequest)
| Warned (provider_name provider_model : string) (err : JsError)
| LoggedError (requestId : JsValue) (err : JsError)
| Counted (type endpoint : string)
| Responded (status : Z) (body : JsValue).

(** What the network answers to one request: after [latency]
    milliseconds the promise either resolves with a response whose [data]
    is given, or rejects (timeout of the client, transport error, error
    status). *)
Record NetReply : Type := {
  latency : Z;
  response_data : Completion JsValue
}.

(** [network] holds the answers the outside world will give to the
    requests to come, in order; [trace] is what the program did so far. *)
Record World : Type := {
  clock : Z;
  network : list NetReply;
  trace : list Event
}.

Definition M (A : Type) : Type := World -> Completion A * World.

Definition ret {A} (a : A) : M A := fun w => (Return a, w).

Definition throw {A} (e : JsError) : M A := fun w => (Throw e, w).

Definition bindM {A B} (m : M A) (k : A -> M B) : M B :=
  fun w =>
    match m w with
    | (Return a, w') => k a w'
    | (Throw e, w') => (Throw e, w')
    end.

Definition liftC {A} (c : Completion A) : M A := fun w => (c, w).

(** [try { body } catch (err) { handler }]. *)
Definition try_catch {A} (body : M A) (handler : JsError -> M A) : M A :=
  fun w =>
    match body w with
    | (Return a, w') => (Return a, w')
    | (Throw e, w') => handler e w'
    end.

Declare Scope effect_scope.
Delimit Scope effect_scope with eff.
Notation "x <- c ;; k" := (bindM c (fun x => k))
  (at level 61, c at next level, right associativity) : effect_scope.
Notation "c ;; k" := (bindM c (fun _ => k))
  (at level 61, right associativity) : effect_scope.

(** [Date.now()]. *)
Definition Date_now : M Z := fun w => (Return (clock w), w).

Definition emit (e : Event) (w : World) : World :=
  {| clock := clock w; network := network w; trace := trace w ++ [e] |}.

(** [console.warn("[AIAnalyzer] <name> (<model>) failed -> fallback",
    err.message)]. *)
Definition console_warn (provider_name provider_model : string) (err : JsError)
  : M unit :=
  fun w => (Return tt, emit (Warned provider_name provider_model err) w).

(** [await axios.post(url, body, {headers, timeout})], read at
    [response.data].  With nothing left to answer the request fails. *)
Definition axios_post (request : HttpRequest) : M JsValue :=
  fun w =>
    match network w with
    | [] => (Throw (Rejected "Network Error"), emit (Posted request) w)
    | r :: rest =>
        (response_data r,
         {| clock := clock w + latency r;
            network := rest;
            trace := trace w ++ [Posted request] |})
    end.

(** The requests of a trace, in order. *)
Fixpoint posts (t : list Event) : list HttpRequest :=
  match t with
  | [] => []
  | Posted r :: rest => r :: posts rest
  | _ :: rest => posts rest
  end.

(** The providers a trace reports as failed, in order. *)
Fixpoint warned (t : list Event) : list (string * string) :=
  match t with
  | [] => []
  | Warned n m _ :: rest => (n, m) :: warned rest
  | _ :: rest => warned rest
  end.

(** The responses a trace sent, in order. *)
Fixpoint responses (t : list Event) : list (Z * JsValue) :=
  match t with
  | [] => []
  | Responded status body :: rest => (status, body) :: responses rest
  | _ :: rest => responses rest
  end.

(* ================================================================== *)
(** * Provider call *)
(* ================================================================== *)

Section Providers.

(** Number-to-string conversion of the host. *)
Variable Number_toString : JsNum -> string.

(** String conversion, as in a template literal. *)
Fixpoint ToString (v : JsValue) : string :=
  match v with
  | JUndefined => "undefined"
  | JNull => "null"
  | JBool true => "true"
  | JBool false => "false"
  | JNumber n => Number_toString n
  | JString s => s
  | JArray items =>
      String.concat ","
        (map (fun x => match x with
                       | JUndefined | JNull => ""
                       | _ => ToString x
                       end) items)
  | JObject _ => "[object Object]"
  end.

(** [items.join(sep)]: [undefined] and [null] elements print as the
    empty string.  Only an array has the method. *)
Definition array_join (sep : string) (v : JsValue) : Completion JsValue :=
  match v with
  | JArray items =>
      Return (JString (String.concat sep
        (map (fun x => if nullish x then "" else ToString x) items)))
  | _ => Throw TypeError
  end.

(** [parts.map(p => p.text)]: only an array has the method. *)
Definition array_map_text (v : JsValue) : Completion JsValue :=
  match v with
  | JArray items =>
      (texts <- mapC (fun p => get_prop p "text") items ;;
       Return (JArray texts))%comp
  | _ => Throw TypeError
  end.

(** [extractContent(providerName, response)], on [response.data]. *)
Definition extractContent (providerName : string) (data : JsValue)
  : Completion JsValue :=
  if providerName =? "gemini" then
    (candidates <- opt_chain data (fun d => get_prop d "candidates") ;;
     first <- opt_chain candidates get_index0 ;;
     content <- opt_chain first (fun c => get_prop c "content") ;;
     parts <- opt_chain content (fun c => get_prop c "parts") ;;
     texts <- opt_chain parts array_map_text ;;
     joined <- opt_chain texts (array_join "") ;;
     Return (js_or joined JNull))%comp
  else if providerName =? "claude" then
    (content <- opt_chain data (fun d => get_prop d "content") ;;
     first <- opt_chain content get_index0 ;;
     text <- opt_chain first (fun f => get_prop f "text") ;;
     Return (js_or text JNull))%comp
  else Return JNull.

(** [response.data?.promptFeedback?.blockReason]. *)
Definition blockReason (data : JsValue) : Completion JsValue :=
  (feedback <- opt_chain data (fun d => get_prop d "promptFeedback") ;;
   opt_chain feedback (fun f => get_prop f "blockReason"))%comp.

Definition gemini_request (self : AIAnalyzer) (p : AIProvider) (prompt : string)
  : HttpRequest :=
  {| req_url := apiUrl p ++ "/" ++ model p ++ ":generateContent?key=" ++ apiKey p;
     req_body :=
       JObject [("contents",
         JArray [JObject [("parts",
           JArray [JObject [("text", JString prompt)]])]])];
     req_headers := [("Content-Type", "application/json")];
     req_timeout := timeout self |}.

Definition claude_request (self : AIAnalyzer) (p : AIProvider) (prompt : string)
  : HttpRequest :=
  {| req_url := apiUrl p;
     req_body :=
       JObject [("model", JString (model p));
                ("max_tokens", JNumber (num_of_Z 500));
                ("messages",
                 JArray [JObject [("role", JString "user");
                                  ("content", JString prompt)]])];
     req_headers := [("Content-Type", "application/json");
                     ("x-api-key", apiKey p);
                     ("anthropic-version", "2023-06-01")];
     req_timeout := timeout self |}.

(** The request [callProvider] prepares; an unknown name throws. *)
Definition build_request (self : AIAnalyzer) (p : AIProvider) (prompt : string)
  : Completion HttpRequest :=
  if name p =? "gemini" then Return (gemini_request self p prompt)
  else if name p =? "claude" then Return (claude_request self p prompt)
  else Throw (Error ("Unknown provider: " ++ name p)).

Definition callProvider (self : AIAnalyzer) (p : AIProvider) (prompt : string)
  : M JsValue :=
  (request <- liftC (build_request self p prompt) ;;
   data <- axios_post request ;;
   blocked <- liftC (if name p =? "gemini" then blockReason data
                     else Return (JBool false)) ;;
   if truthy blocked
   then throw (Error ("GEMINI_BLOCKED:" ++ ToString blocked))
   else
     content <- liftC (extractContent (name p) data) ;;
     if negb (truthy content)
     then throw (Error (if name p =? "gemini"
                        then "GEMINI_EMPTY_RESPONSE"
                        else "EMPTY_AI_RESPONSE"))
     else ret content)%eff.

End Providers.

(* ================================================================== *)
(** * Main analysis with fallback *)
(* ================================================================== *)

Definition nl : string := String (ascii_of_nat 10) "".
Definition dq : string := String (ascii_of_nat 34) "".

Section Analysis.

Variable JSON_parse : string -> option JsValue.

(** [JSON.stringify(v, null, 2)] as a template literal prints it. *)
Variable JSON_stringify : JsValue -> string.

Variable Number_toString : JsNum -> string.

Definition buildPrompt (input : JsValue) (ruleContext : RuleContext) : string :=
  String.concat nl
    [ "You are a decision support system analyzing a GREY-ZONE request.";
      "";
      "REQUEST:";
      JSON_stringify input;
      "";
      "RULE CONTEXT:";
      JSON_stringify (js_or (evaluationPath ruleContext) (JArray []));
      "";
      "Respond ONLY in JSON:";
      "{";
      ("  " ++ dq ++ "recommendation" ++ dq ++ ": " ++ dq ++ "ALLOW" ++ dq
        ++ " | " ++ dq ++ "DENY" ++ dq ++ " | " ++ dq ++ "REVIEW" ++ dq ++ ",")%string;
      ("  " ++ dq ++ "confidence" ++ dq ++ ": 0.0-1.0,")%string;
      ("  " ++ dq ++ "reasoning" ++ dq ++ ": " ++ dq ++ "short explanation" ++ dq ++ ",")%string;
      ("  " ++ dq ++ "risk_factors" ++ dq ++ ": [],")%string;
      ("  " ++ dq ++ "mitigating_factors" ++ dq ++ ": []")%string;
      "}" ].

(** [{ analyzed: false, meetsConfidenceThreshold: false }], with
    [reason] and [analysisTimeMs] when given. *)
Definition unanalyzed (why : option string) (elapsed : option Z) : AIInsight :=
  {| analyzed := false;
     provider := None;
     insight_model := None;
     analysisTimeMs := elapsed;
     meetsConfidenceThreshold := false;
     recommendation := None;
     confidence := None;
     reasoning := JUndefined;
     riskFactors := JUndefined;
     mitigatingFactors := JUndefined;
     reason := why |}.

(** The insight returned for a provider that replied. *)
Definition insight_of (self : AIAnalyzer) (p : AIProvider) (elapsed : Z)
    (parsed : ParsedAdvice) : AIInsight :=
  {| analyzed := true;
     provider := Some (name p);
     insight_model := Some (model p);
     analysisTimeMs := Some elapsed;
     meetsConfidenceThreshold :=
       js_ge (pa_confidence parsed) (confidenceThreshold self);
     recommendation := Some (pa_recommendation parsed);
     confidence := Some (pa_confidence parsed);
     reasoning := pa_reasoning parsed;
     riskFactors := pa_riskFactors parsed;
     mitigatingFactors := pa_mitigatingFactors parsed;
     reason := None |}.

(** One turn of the [for] loop: [Some i] when the body returns [i] from
    [analyze], [None] when the [catch] block ran and the loop goes on. *)
Definition attempt (self : AIAnalyzer) (start : Z) (prompt : string)
    (p : AIProvider) : M (option AIInsight) :=
  try_catch
    (raw <- callProvider Number_toString self p prompt ;;
     let parsed := parseResponse JSON_parse raw in
     finish <- Date_now ;;
     ret (Some (insight_of self p (finish - start)%Z parsed)))%eff
    (fun err =>
       (console_warn (name p) (model p) err ;;
        ret None)%eff).

Fixpoint analyze_loop (self : AIAnalyzer) (start : Z) (prompt : string)
    (ps : list AIProvider) : M AIInsight :=
  match ps with
  | [] =>
      (finish <- Date_now ;;
       ret (unanalyzed (Some "ALL_PROVIDERS_FAILED") (Some (finish - start)%Z)))%eff
  | p :: rest =>
      (r <- attempt self start prompt p ;;
       match r with
       | Some insight => ret insight
       | None => analyze_loop self start prompt rest
       end)%eff
  end.

Definition analyze (self : AIAnalyzer) (input : JsValue)
    (ruleContext : RuleContext) : M AIInsight :=
  if negb (enabled self) then ret (unanalyzed None None)
  else
    (start <- Date_now ;;
     let prompt := buildPrompt input ruleContext in
     analyze_loop self start prompt (providers self))%eff.

End Analysis.

(* ================================================================== *)
(** * The decision endpoint *)
(* ================================================================== *)

Record Request : Type := {
  body : JsValue;
  requestId : JsValue
}.

(** [v === "ERROR"]. *)
Definition is_ERROR (v : JsValue) : bool :=
  match v with
  | JString s => s =? "ERROR"
  | _ => false
  end.

(** [res.status(code).json(body)]; a [JsValue] is a tree of plain data,
    which always serializes. *)
Definition res_status_json (code : Z) (payload : JsValue) : M unit :=
  fun w => (Return tt, emit (Responded code payload) w).

(** [console.error("[<requestId>] ...", error)]. *)
Definition console_error (rid : JsValue) (err : JsError) : M unit :=
  fun w => (Return tt, emit (LoggedError rid err) w).

(** [metrics.recordError(type, endpoint)]: one increment of the error
    counter, whose labels are the two it declares. *)
Definition recordError (type endpoint : string) : M unit :=
  fun w => (Return tt, emit (Counted type endpoint) w).

Section Routes.

(** [await decisionService.decide(input, requestId)]. *)
Variable decide : JsValue -> JsValue -> M JsValue.

Variable ENGINE_VERSION : JsValue.

(** [new Date(ms).toISOString()]. *)
Variable toISOString : Z -> string.

Definition error_body (rid : JsValue) (timestamp : string) : JsValue :=
  JObject
    [ ("decision", JObject [ ("final", JString "ERROR");
                             ("source", JString "SYSTEM_ERROR") ]);
      ("error", JObject [ ("message", JString "Internal server error");
                          ("requestId", rid) ]);
      ("meta", JObject [ ("version", ENGINE_VERSION);
                         ("timestamp", JString timestamp) ]) ].

(** The handler that [decisionRoutes(decisionService, ENGINE_VERSION)]
    registers for [POST /decide]. *)
Definition post_decide (req : Request) : M unit :=
  try_catch
    (let input := body req in
     result <- decide input (requestId req) ;;
     verdict <- liftC (decision <- get_prop result "decision" ;;
                       get_prop decision "final")%comp ;;
     let statusCode := (if is_ERROR verdict then 500 else 200)%Z in
     res_status_json statusCode result)%eff
    (fun error =>
       (console_error (requestId req) error ;;
        recordError "unhandled_error" "/decide" ;;
        ms <- Date_now ;;
        res_status_json 500 (error_body (requestId req) (toISOString ms)))%eff).

End Routes.

(* ================================================================== *)
(** * Vocabulary of the statements *)
(* ================================================================== *)

Section Fallback.

Variable Number_toString : JsNum -> string.
Variable self : AIAnalyzer.
Variable prompt : string.

(** [all_fail ps w w']: called one after the other from world [w], each
    provider of [ps] fails, whatever the error, and the warnings logged
    in between leave the world at [w']. *)
Inductive all_fail : list AIProvider -> World -> World -> Prop :=
| all_fail_nil (w : World) : all_fail [] w w
| all_fail_cons (p : AIProvider) (ps : list AIProvider)
    (w w1 w2 : World) (e : JsError) :
    callProvider Number_toString self p prompt w = (Throw e, w1) ->
    all_fail ps (emit (Warned (name p) (model p) e) w1) w2 ->
    all_fail (p :: ps) w w2.

(** The requests of the providers of [ps] that have a known name, in
    the order of [ps]. *)
Definition requests_for (ps : list AIProvider) : list HttpRequest :=
  flat_map (fun p => match build_request self p prompt with
                     | Return request => [request]
                     | Throw _ => []
                     end) ps.

End Fallback.

(** A provider whose name [callProvider] does not know. *)
Definition unknown_provider (p : AIProvider) : Prop :=
  name p <> "gemini" /\ name p <> "claude".

(** The value of [payload.k] once the payload is known not to be [null]. *)
Definition payload_field (payload : JsValue) (k : string) : JsValue :=
  match get_prop payload k with
  | Return v => v
  | Throw _ => JUndefined
  end.

(** Reading a path of property names, as the dashboard and the callers
    of the endpoint do. *)
Fixpoint read_path (v : JsValue) (path : list string) : JsValue :=
  match path with
  | [] => v
  | k :: rest => read_path (payload_field v k) rest
  end.

(* ================================================================== *)
(** * Sample data *)
(* ================================================================== *)

Module Sample.

Definition gemini : AIProvider :=
  {| name := "gemini"; apiUrl := "https://g.example/v1/models";
     apiKey := "k1"; model := "gemini-pro" |}.

Definition claude : AIProvider :=
  {| name := "claude"; apiUrl := "https://c.example/v1/messages";
     apiKey := "k2"; model := "claude-3" |}.

Definition mystery : AIProvider :=
  {| name := "openai"; apiUrl := "https://o.example"; apiKey := "k3";
     model := "gpt" |}.

Definition analyzer : AIAnalyzer :=
  new_AIAnalyzer (Some {| cfg_enabled := Some true;
                          cfg_providers := Some [mystery; gemini; claude];
                          cfg_timeout := None;
                          cfg_confidenceThreshold := None |}).

(** The text [{"recommendation":"ALLOW","confidence":0.92}]. *)
Definition allow_text : string :=
  "{" ++ dq ++ "recommendation" ++ dq ++ ":" ++ dq ++ "ALLOW" ++ dq ++ ","
      ++ dq ++ "confidence" ++ dq ++ ":0.92}".

Definition allow_payload : JsValue :=
  JObject [("recommendation", JString "ALLOW");
           ("confidence", JNumber (Fin (92 # 100)%Q))].

(** A decoder that knows three texts and rejects every other one. *)
Definition JSON_parse (s : string) : option JsValue :=
  if s =? allow_text then Some allow_payload
  else if s =? "null" then Some JNull
  else if s =? "{}" then Some (JObject [])
  else None.

Definition JSON_stringify (v : JsValue) : string := "<json>".

Definition Number_toString (n : JsNum) : string := "<number>".

Definition claude_reply (text : string) : JsValue :=
  JObject [("content", JArray [JObject [("text", JString text)]])].

Definition gemini_reply (text : string) : JsValue :=
  JObject [("candidates",
    JArray [JObject [("content",
      JObject [("parts", JArray [JObject [("text", JString text)]])])]])].

Definition gemini_blocked : JsValue :=
  JObject [("promptFeedback", JObject [("blockReason", JString "SAFETY")])].

Definition context : RuleContext := {| evaluationPath := JArray [] |}.

Definition input : JsValue := JObject [("request", JObject [])].

(** The first provider to be reached is blocked, the second answers. *)
Definition world_fallback : World :=
  {| clock := 1000;
     network := [ {| latency := 40; response_data := Return gemini_blocked |};
                  {| latency := 60;
                     response_data := Return (claude_reply allow_text) |} ];
     trace := [] |}.

(** The first provider to be reached answers with text that is no JSON. *)
Definition world_not_json : World :=
  {| clock := 0;
     network := [ {| latency := 25;
                     response_data := Return (gemini_reply "not json") |};
                  {| latency := 30;
                     response_data := Return (claude_reply allow_text) |} ];
     trace := [] |}.

(** Every request times out. *)
Definition world_down : World :=
  {| clock := 0;
     network := [ {| latency := 5000;
                     response_data := Throw (Rejected "timeout of 5000ms exceeded") |};
                  {| latency := 5000;
                     response_data := Throw (Rejected "timeout of 5000ms exceeded") |} ];
     trace := [] |}.

Definition prompt : string := buildPrompt JSON_stringify input context.

(** Insights as [analyze] builds them, for the confidences 0.92, 0.4 and
    0.85 and the default threshold 0.7. *)
Definition advice (r : Recommendation) (c : Q) : ParsedAdvice :=
  {| pa_recommendation := r; pa_confidence := Fin c;
     pa_reasoning := JString ""; pa_riskFactors := JArray [];
     pa_mitigatingFactors := JArray [] |}.

Definition confident : AIInsight :=
  insight_of analyzer claude 100 (advice ALLOW (92 # 100)%Q).

Definition hesitant : AIInsight :=
  insight_of analyzer claude 100 (advice ALLOW (4 # 10)%Q).

Definition alarmed : AIInsight :=
  insight_of analyzer claude 100 (advice DENY (85 # 100)%Q).

(** A decision service whose pipeline fails. *)
Definition decide_fails (input rid : JsValue) : M JsValue :=
  throw (Error "rule engine crashed").

Definition request : Request :=
  {| body := input; requestId := JString "req_1_abc" |}.

Definition ENGINE_VERSION : JsValue := JString "v2".

Definition toISOString (ms : Z) : string := "<iso date>".

End Sample.

(* ================================================================== *)
(** * Status of the analyzer *)
(* ================================================================== *)



Definition isEnabled (self : AIAnalyzer) : bool := enabled self.


(* ================================================================== *)
(** * CORS middleware *)
(* ================================================================== *)

(** What [corsMiddleware] reads of the request: [req.headers.origin]
    ([None] when the header is absent) and [req.method]. *)
Record CorsRequest : Type := {
  cors_origin : option string;
  cors_method : string
}.

(** How a middleware hands over: it calls [next()], or it ends the
    response with a status. *)
Inductive Handover : Type :=
| CallsNext
| Ends (status : Z).

(** [list.filter(Boolean)] on strings that may be [undefined]. *)
Definition filter_Boolean (l : list (option string)) : list string :=
  flat_map (fun x => match x with
                     | Some s => if s =? "" then [] else [s]
                     | None => []
                     end) l.

(** [FRONTEND_URL] is [process.env.FRONTEND_URL]. *)
Definition allowedOrigins (FRONTEND_URL : option string) : list string :=
  filter_Boolean [ Some "http://localhost:5173";
                   Some "http://127.0.0.1:5173";
                   Some "http://decision.local";
                   FRONTEND_URL ].

(** [list.includes(s)]. *)
Definition includes (s : string) (l : list string) : bool :=
  existsb (fun x => x =? s) l.

(** The [res.setHeader] calls of [corsMiddleware], in order, and how it
    hands over. *)
Definition corsMiddleware (FRONTEND_URL : option string) (req : CorsRequest)
  : list (string * string) * Handover :=
  let allowed := allowedOrigins FRONTEND_URL in
  let granted :=
    match cors_origin req with
    | Some origin =>
        if negb (origin =? "") && includes origin allowed
        then [ ("Access-Control-Allow-Origin", origin);
               ("Access-Control-Allow-Credentials", "true") ]
        else []
    | None => []
    end in
  (granted
   ++ [ ("Access-Control-Allow-Methods", "GET, POST, PUT, DELETE, OPTIONS");
        ("Access-Control-Allow-Headers",
         "Content-Type, Authorization, X-Requested-With, X-Canary");
        ("Access-Control-Max-Age", "86400") ],
   if cors_method req =? "OPTIONS" then Ends 204 else CallsNext).

(* ================================================================== *)
(** * Metrics *)
(* ================================================================== *)

Inductive Metric : Type :=
| requestDuration
| decisionCounter
| ruleEvaluationCounter
| aiInvocationCounter
| aiLatency
| errorCounter
| greyZoneRateGauge
| activeRequests
| engineInfo.

(** The [labelNames] each metric is declared with. *)
Definition labelNames (m : Metric) : list string :=
  match m with
  | requestDuration => ["outcome"; "ai_used"; "version"]
  | decisionCounter => ["outcome"; "source"; "version"]
  | ruleEvaluationCounter => ["rule_id"; "matched"]
  | aiInvocationCounter => ["success"; "provider"]
  | aiLatency => ["provider"; "success"]
  | errorCounter => ["type"; "endpoint"]
  | greyZoneRateGauge => []
  | activeRequests => []
  | engineInfo => ["version"; "rules_count"; "ai_enabled"]
  end.

(** A call on a metric of the registry.  The registry is a library: the
    helpers are modelled by the calls they make on it, in order, and the
    calls themselves are taken to return. *)
Inductive MetricUpdate : Type :=
| Observe (m : Metric) (labels : list (string * JsValue)) (value : JsValue)
| Inc (m : Metric) (labels : list (string * JsValue))
| Reset (m : Metric)
| SetGauge (m : Metric) (labels : list (string * JsValue)) (value : JsNum).

Definition update_metric (u : MetricUpdate) : Metric :=
  match u with
  | Observe m _ _ | Inc m _ | Reset m | SetGauge m _ _ => m
  end.

Definition update_labels (u : MetricUpdate) : list (string * JsValue) :=
  match u with
  | Observe _ labels _ | Inc _ labels | SetGauge _ labels _ => labels
  | Reset _ => []
  end.

(** The argument of [recordDecision]; an absent property is
    [JUndefined]. *)
Record DecisionParams : Type := {
  dp_outcome : JsValue;
  dp_source : JsValue;
  dp_version : JsValue;
  dp_aiUsed : JsValue;
  dp_durationMs : JsValue;
  dp_evaluationPath : JsValue;
  dp_matchedRuleId : JsValue
}.

(** The argument of [recordAIInvocation]. *)
Record InvocationParams : Type := {
  ip_success : JsValue;
  ip_provider : JsValue;
  ip_durationMs : JsValue
}.

Section Metrics.

Variable Number_toString : JsNum -> string.

(** [String(v)], on the plain data of [JsValue]. *)
Definition String_of (v : JsValue) : JsValue :=
  JString (ToString Number_toString v).

(** The body of the [forEach] callback of [recordDecision]. *)
Definition record_rule_evaluation (evaluation : JsValue)
  : Completion MetricUpdate :=
  (ruleId <- get_prop evaluation "ruleId" ;;
   matched <- get_prop evaluation "matched" ;;
   Return (Inc ruleEvaluationCounter
             [("rule_id", ruleId); ("matched", String_of matched)]))%comp.


(** [items.forEach(callback)]: the updates made before the callback
    throws, if it does, stay made. *)
Fixpoint forEach_rule_evaluation (items : list JsValue)
  : list MetricUpdate * Completion unit :=
  match items with
  | [] => ([], Return tt)
  | evaluation :: rest =>
      match record_rule_evaluation evaluation with
      | Return u =>
          let (us, c) := forEach_rule_evaluation rest in (u :: us, c)
      | Throw e => ([], Throw e)
      end
  end.

(** [recordDecision(params)]: the updates it makes, in order, and how it
    completes.  Only an array has [forEach]. *)
Definition recordDecision (params : DecisionParams)
  : list MetricUpdate * Completion unit :=
  let first :=
    [ Observe requestDuration
        [("outcome", dp_outcome params);
         ("ai_used", String_of (dp_aiUsed params));
         ("version", dp_version params)]
        (dp_durationMs params);
      Inc decisionCounter
        [("outcome", dp_outcome params);
         ("source", dp_source params);
         ("version", dp_version params)] ] in
  if truthy (dp_evaluationPath params) then
    match dp_evaluationPath params with
    | JArray items =>
        let (us, c) := forEach_rule_evaluation items in (first ++ us, c)
    | _ => (first, Throw TypeError)
    end
  else (first, Return tt).

(** [recordAIInvocation(params)]. *)
Definition recordAIInvocation (params : InvocationParams) : list MetricUpdate :=
  Inc aiInvocationCounter
    [("success", String_of (ip_success params));
     ("provider", ip_provider params)]
  :: (if truthy (ip_durationMs params)
      then [ Observe aiLatency
               [("provider", ip_provider params);
                ("success", String_of (ip_success params))]
               (ip_durationMs params) ]
      else []).

(** [recordError(type, endpoint)], as a call on the registry. *)
Definition recordError_update (type endpoint : JsValue) : list MetricUpdate :=
  [ Inc errorCounter [("type", type); ("endpoint", endpoint)] ].

(** [updateEngineInfo(version, rulesCount, aiEnabled)]. *)
Definition updateEngineInfo (version rulesCount aiEnabled : JsValue)
  : list MetricUpdate :=
  [ Reset engineInfo;
    SetGauge engineInfo
      [("version", version);
       ("rules_count", String_of rulesCount);
       ("ai_enabled", String_of aiEnabled)]
      (num_of_Z 1) ].

End Metrics.

(* ================================================================== *)
(** * Dashboard *)
(* ================================================================== *)

(** The state of the page [Index]: [result] and [error] are [null] when
    nothing is shown. *)
Record PageState : Type := {
  page_result : JsValue;
  page_error : option string;
  page_isLoading : bool
}.

(** What [await fetch(...)] gives: a rejection, or a response with its
    status and what [await response.json()] gives. *)
Inductive FetchOutcome : Type :=
| FetchFailed (e : JsError)
| FetchResponded (status : Z) (payload : Completion JsValue).

(** [response.ok]: the status is in the range 200 to 299. *)
Definition response_ok (status : Z) : bool :=
  ((200 <=? status) && (status <=? 299))%Z.

Definition setResult (v : JsValue) (s : PageState) : PageState :=
  {| page_result := v; page_error := page_error s;
     page_isLoading := page_isLoading s |}.

Definition setError (e : option string) (s : PageState) : PageState :=
  {| page_result := page_result s; page_error := e;
     page_isLoading := page_isLoading s |}.

Definition setIsLoading (b : bool) (s : PageState) : PageState :=
  {| page_result := page_result s; page_error := page_error s;
     page_isLoading := b |}.

Section Dashboard.

Variable Number_toString : JsNum -> string.

(** The [message] of an error the runtime raised. *)
Variable runtime_message : JsError -> string.

(** [err.message]; every [JsError] is an instance of [Error]. *)
Definition error_message (e : JsError) : string :=
  match e with
  | Error message | Rejected message => message
  | _ => runtime_message e
  end.

(** The [try] block of [handleSubmit] of the page, up to [setResult]. *)
Definition fetch_decision (fetched : FetchOutcome) : Completion JsValue :=
  match fetched with
  | FetchFailed e => Throw e
  | FetchResponded status payload =>
      if negb (response_ok status)
      then Throw (Error ("Request failed with status "
                         ++ Number_toString (num_of_Z status)))
      else payload
  end.

(** [handleSubmit(data)] of the page, given what [fetch] gives. *)
Definition page_handleSubmit (fetched : FetchOutcome) (s : PageState)
  : PageState :=
  let s := setIsLoading true s in
  let s := setError None s in
  let s := setResult JNull s in
  let s :=
    match fetch_decision fetched with
    | Return resultData => setResult resultData s
    | Throw err => setError (Some (error_message err)) s
    end in
  setIsLoading false s.


(** [parseFloat] of the host. *)
Variable parseFloat : string -> JsNum.



End Dashboard.

(** The string each source stands for. *)
Definition source_string (s : Source) : string :=
  match s with
  | RULE => "RULE"
  | RULE_ABSOLUTE => "RULE_ABSOLUTE"
  | AI_RECOMMENDED => "AI_RECOMMENDED"
  | AI_FLAGGED_REVIEW => "AI_FLAGGED_REVIEW"
  | AI_UNAVAILABLE => "AI_UNAVAILABLE"
  | AI_UNCERTAIN => "AI_UNCERTAIN"
  end.

(** [sourceLabels[key]] of [DecisionResult]; [None] is [undefined]. *)
Definition sourceLabels (key : string) : option string :=
  if key =? "RULE" then Some "Rule Engine"
  else if key =? "AI_RECOMMENDED" then Some "AI Recommended"
  else if key =? "AI_FLAGGED_REVIEW" then Some "AI Flagged for Review"
  else None.


(** A text of white space only. *)
Fixpoint all_whitespace (s : string) : bool :=
  match s with
  | EmptyString => true
  | String c rest => is_whitespace c && all_whitespace rest
  end.

(** A part [{text: s}] of a gemini reply. *)
Definition text_part (s : string) : JsValue := JObject [("text", JString s)].

(** A gemini reply whose first candidate has the given parts. *)
Definition gemini_data (parts others : list JsValue) : JsValue :=
  JObject [("candidates",
    JArray (JObject [("content", JObject [("parts", JArray parts)])]
            :: others))].

(** An update names exactly the labels its metric declares; a reset
    names none. *)
Definition well_labelled (u : MetricUpdate) : Prop :=
  match u with
  | Reset _ => True
  | _ => map fst (update_labels u) = labelNames (update_metric u)
  end.

(** Whether a string holds a fence. *)
Fixpoint has_fence (s : string) : bool :=
  match s with
  | EmptyString => false
  | String _ rest => prefix "```" s || has_fence rest
  end.

(** Whether a string holds a backtick. *)
Fixpoint has_backtick (s : string) : bool :=
  match s with
  | EmptyString => false
  | String c rest => (c =? "`")%char || has_backtick rest
  end.

(* ================================================================== *)
(** * Properties of numbers *)
(* ================================================================== *)

(** Numeric equality of two numbers that are not NaN. *)
Definition num_eq (a b : JsNum) : Prop :=
  match a, b with
  | Fin x, Fin y => (x == y)%Q
  | NegInf, NegInf | PosInf, PosInf => True
  | _, _ => False
  end.

Lemma Qle_bool_false (x y : Q) : Qle_bool x y = false -> (y < x)%Q.
Proof.
  intros H. apply Qnot_le_lt. intros Hle.
  apply Qle_bool_iff in Hle. congruence.
Qed.

Lemma js_lt_not_ge (a b : JsNum) : js_lt a b = true -> js_ge a b = false.
Proof.
  destruct a, b; simpl; try congruence; intros H.
  now apply negb_true_iff in H.
Qed.

(** [Math.max(0, Math.min(1, n))] by cases on [n]. *)
Lemma clamp_below (q : Q) :
  (q < 0)%Q -> Math_max (num_of_Z 0) (Math_min (num_of_Z 1) (Fin q)) = num_of_Z 0.
Proof.
  intros Hq. unfold Math_min, Math_max, num_of_Z, js_ge.
  destruct (Qle_bool (inject_Z 1) q) eqn:H1.
  - apply Qle_bool_iff in H1.
    assert (inject_Z 1 == 1)%Q by reflexivity.
    exfalso. apply (Qlt_irrefl 0%Q).
    apply Qlt_trans with (y := 1%Q); [reflexivity|].
    apply Qle_lt_trans with (y := q); [now rewrite <- H|exact Hq].
  - destruct (Qle_bool q (inject_Z 0)) eqn:H0; [reflexivity|].
    apply Qle_bool_false in H0.
    exfalso. apply (Qlt_irrefl q).
    apply Qlt_trans with (y := 0%Q); [exact Hq|exact H0].
Qed.

Lemma clamp_above (q : Q) :
  (1 < q)%Q -> Math_max (num_of_Z 0) (Math_min (num_of_Z 1) (Fin q)) = num_of_Z 1.
Proof.
  intros Hq. unfold Math_min, Math_max, num_of_Z, js_ge.
  destruct (Qle_bool (inject_Z 1) q) eqn:H1.
  - reflexivity.
  - apply Qle_bool_false in H1.
    exfalso. apply (Qlt_irrefl q).
    apply Qlt_trans with (y := 1%Q); [exact H1|exact Hq].
Qed.

Lemma clamp_inside (q : Q) :
  (0 <= q)%Q -> (q <= 1)%Q ->
  num_eq (Math_max (num_of_Z 0) (Math_min (num_of_Z 1) (Fin q))) (Fin q).
Proof.
  intros H0 H1. unfold Math_min, Math_max, num_of_Z, js_ge.
  destruct (Qle_bool (inject_Z 1) q) eqn:E1.
  - apply Qle_bool_iff in E1. simpl.
    apply Qle_antisym; [exact E1|exact H1].
  - destruct (Qle_bool q (inject_Z 0)) eqn:E0; simpl.
    + apply Qle_bool_iff in E0. apply Qle_antisym; [exact H0|exact E0].
    + reflexivity.
Qed.

Lemma clamp_infinite :
  Math_max (num_of_Z 0) (Math_min (num_of_Z 1) PosInf) = num_of_Z 1 /\
  Math_max (num_of_Z 0) (Math_min (num_of_Z 1) NegInf) = num_of_Z 0.
Proof. split; reflexivity. Qed.

Lemma clamp_in_unit_interval (n : JsNum) :
  n <> NaN -> in_unit_interval (Math_max (num_of_Z 0) (Math_min (num_of_Z 1) n)).
Proof.
  intros Hn. destruct n as [| |q|]; [congruence| | |].
  - exists 0%Q. repeat split; [apply Qle_refl|discriminate].
  - destruct (Qlt_le_dec q 0) as [Hneg|Hpos].
    + rewrite (clamp_below q Hneg). exists 0%Q.
      repeat split; [apply Qle_refl|discriminate].
    + destruct (Qlt_le_dec 1 q) as [Hbig|Hsmall].
      * rewrite (clamp_above q Hbig). exists 1%Q.
        repeat split; [discriminate|apply Qle_refl].
      * pose proof (clamp_inside q Hpos Hsmall) as He.
        destruct (Math_max _ _) as [| |q'|]; simpl in He; try contradiction.
        exists q'. split; [reflexivity|]. rewrite He. now split.
  - exists 1%Q. repeat split; [discriminate|apply Qle_refl].
Qed.

Lemma num_or_truthy (x : option JsNum) (d : JsNum) :
  num_truthy d = true -> num_truthy (num_or x d) = true.
Proof.
  intros Hd. destruct x as [n|]; simpl; [|exact Hd].
  destruct (num_truthy n) eqn:E; [exact E|exact Hd].
Qed.

(* ================================================================== *)
(** * Cleaning a reply *)
(* ================================================================== *)

Example strip_fences_json :
  trim (strip_fences "```json
{}
```") = "{}".
Proof. reflexivity. Qed.

Example strip_fences_plain : strip_fences "a```b``c" = "ab``c".
Proof. reflexivity. Qed.

(* ================================================================== *)
(** * Properties of traces and of the provider call *)
(* ================================================================== *)

Lemma posts_app (a b : list Event) : posts (a ++ b) = posts a ++ posts b.
Proof.
  induction a as [|e a IH]; simpl; [reflexivity|].
  destruct e; simpl; rewrite IH; reflexivity.
Qed.

Lemma warned_app (a b : list Event) : warned (a ++ b) = warned a ++ warned b.
Proof.
  induction a as [|e a IH]; simpl; [reflexivity|].
  destruct e; simpl; rewrite IH; reflexivity.
Qed.

Lemma responses_app (a b : list Event) :
  responses (a ++ b) = responses a ++ responses b.
Proof.
  induction a as [|e a IH]; simpl; [reflexivity|].
  destruct e; simpl; rewrite IH; reflexivity.
Qed.

Ltac run_effects :=
  unfold bindM, liftC, ret, throw, try_catch, Date_now, console_warn,
    console_error, recordError, res_status_json in *;
  simpl in *.

Section ProviderFacts.

Variable Number_toString : JsNum -> string.
Variable self : AIAnalyzer.
Variable prompt : string.

Lemma build_request_unknown (p : AIProvider) :
  unknown_provider p ->
  build_request self p prompt = Throw (Error ("Unknown provider: " ++ name p)).
Proof.
  intros [Hg Hc]. unfold build_request.
  apply String.eqb_neq in Hg. apply String.eqb_neq in Hc.
  now rewrite Hg, Hc.
Qed.

Lemma build_request_timeout (p : AIProvider) (request : HttpRequest) :
  build_request self p prompt = Return request ->
  req_timeout request = timeout self.
Proof.
  unfold build_request.
  destruct (name p =? "gemini"); [intros [= <-]; reflexivity|].
  destruct (name p =? "claude"); [intros [= <-]; reflexivity|discriminate].
Qed.

(** An unknown name throws before any request is made. *)
Lemma callProvider_unknown (p : AIProvider) (w : World) :
  unknown_provider p ->
  callProvider Number_toString self p prompt w
  = (Throw (Error ("Unknown provider: " ++ name p)), w).
Proof.
  intros Hu. unfold callProvider. run_effects.
  now rewrite (build_request_unknown p Hu).
Qed.

(** What one call adds to the trace: the request of a provider with a
    known name, and nothing else. *)
Lemma callProvider_trace (p : AIProvider) (w w' : World) (r : Completion JsValue) :
  callProvider Number_toString self p prompt w = (r, w') ->
  trace w' = trace w ++ map Posted (requests_for self prompt [p]).
Proof.
  unfold callProvider, requests_for. run_effects.
  destruct (build_request self p prompt) as [request|e]; simpl.
  - unfold axios_post.
    destruct (network w) as [|reply rest].
    + intros [= _ <-]. reflexivity.
    + destruct (response_data reply) as [data|e].
      * destruct (if name p =? "gemini" then blockReason data
                  else Return (JBool false)) as [blocked|e].
        -- destruct (truthy blocked).
           ++ intros [= _ <-]. reflexivity.
           ++ destruct (extractContent Number_toString (name p) data) as [content|e].
              ** destruct (negb (truthy content)); intros [= _ <-]; reflexivity.
              ** intros [= _ <-]. reflexivity.
        -- intros [= _ <-]. reflexivity.
      * intros [= _ <-]. reflexivity.
  - intros [= _ <-]. now rewrite app_nil_r.
Qed.

(** A rejected request (timeout, transport error) makes the call fail
    with the rejection. *)
Lemma callProvider_rejected (p : AIProvider) (request : HttpRequest)
    (w : World) (reply : NetReply) (rest : list NetReply) (e : JsError) :
  build_request self p prompt = Return request ->
  network w = reply :: rest ->
  response_data reply = Throw e ->
  fst (callProvider Number_toString self p prompt w) = Throw e.
Proof.
  intros Hb Hn Hr. unfold callProvider. run_effects.
  rewrite Hb. unfold axios_post. rewrite Hn, Hr. reflexivity.
Qed.

(** A reply that carries a block reason makes the gemini call fail. *)
Lemma callProvider_blocked (p : AIProvider) (w : World) (reply : NetReply)
    (rest : list NetReply) (data why : JsValue) :
  name p = "gemini" ->
  network w = reply :: rest ->
  response_data reply = Return data ->
  blockReason data = Return why ->
  truthy why = true ->
  fst (callProvider Number_toString self p prompt w)
  = Throw (Error ("GEMINI_BLOCKED:" ++ ToString Number_toString why)).
Proof.
  intros Hname Hn Hr Hb Ht. unfold callProvider, build_request. run_effects.
  rewrite Hname. simpl. unfold axios_post. rewrite Hn, Hr, Hb, Ht. reflexivity.
Qed.

(** A reply without content makes the call fail. *)
Lemma callProvider_empty (p : AIProvider) (request : HttpRequest) (w : World)
    (reply : NetReply) (rest : list NetReply) (data content : JsValue) :
  build_request self p prompt = Return request ->
  network w = reply :: rest ->
  response_data reply = Return data ->
  (name p = "gemini" -> exists why, blockReason data = Return why /\ truthy why = false) ->
  extractContent Number_toString (name p) data = Return content ->
  truthy content = false ->
  exists message,
    fst (callProvider Number_toString self p prompt w) = Throw (Error message).
Proof.
  intros Hb Hn Hr Hblock Hc Ht. unfold callProvider. run_effects.
  rewrite Hb. unfold axios_post. rewrite Hn, Hr.
  destruct (name p =? "gemini") eqn:Hg.
  - apply String.eqb_eq in Hg. destruct (Hblock Hg) as (why & Hw & Hf).
    rewrite Hw, Hf, Hc, Ht. simpl. eexists. reflexivity.
  - simpl. rewrite Hc, Ht. simpl. eexists. reflexivity.
Qed.

Lemma requests_for_app (a b : list AIProvider) :
  requests_for self prompt (a ++ b)
  = requests_for self prompt a ++ requests_for self prompt b.
Proof. unfold requests_for. now rewrite flat_map_app. Qed.

Lemma posts_Posted (l : list HttpRequest) : posts (map Posted l) = l.
Proof. induction l as [|x l IH]; simpl; [|rewrite IH]; reflexivity. Qed.

Lemma warned_Posted (l : list HttpRequest) : warned (map Posted l) = [].
Proof. induction l as [|x l IH]; simpl; [|rewrite IH]; reflexivity. Qed.

Lemma all_fail_trace (ps : list AIProvider) (w w' : World) :
  all_fail Number_toString self prompt ps w w' ->
  posts (trace w') = posts (trace w) ++ requests_for self prompt ps
  /\ warned (trace w') = warned (trace w) ++ map (fun p => (name p, model p)) ps.
Proof.
  induction 1 as [w|p ps w w1 w2 e Hcall Hrest [IHp IHw]].
  - simpl. now rewrite !app_nil_r.
  - apply callProvider_trace in Hcall.
    change (p :: ps) with ([p] ++ ps).
    rewrite requests_for_app, map_app, IHp, IHw.
    unfold emit; cbn [trace].
    rewrite Hcall, !posts_app, !warned_app, posts_Posted, warned_Posted.
    cbn [posts warned map]. rewrite !app_nil_r, <- !app_assoc.
    split; reflexivity.
Qed.



End ProviderFacts.

(* ================================================================== *)
(** * Properties of the fallback loop *)
(* ================================================================== *)

Section AnalysisFacts.

Variable JSON_parse : string -> option JsValue.
Variable JSON_stringify : JsValue -> string.
Variable Number_toString : JsNum -> string.
Variable self : AIAnalyzer.

Local Abbreviation call := (callProvider Number_toString self).
Local Abbreviation loop := (analyze_loop JSON_parse Number_toString self).
Local Abbreviation failing := (all_fail Number_toString self).

Lemma attempt_returns (start : Z) (prompt : string) (p : AIProvider)
    (w w' : World) (raw : JsValue) :
  call p prompt w = (Return raw, w') ->
  attempt JSON_parse Number_toString self start prompt p w
  = (Return (Some (insight_of self p (clock w' - start)%Z
                     (parseResponse JSON_parse raw))), w').
Proof. intros H. unfold attempt. run_effects. now rewrite H. Qed.

Lemma attempt_recovers (start : Z) (prompt : string) (p : AIProvider)
    (w w' : World) (e : JsError) :
  call p prompt w = (Throw e, w') ->
  attempt JSON_parse Number_toString self start prompt p w
  = (Return None, emit (Warned (name p) (model p) e) w').
Proof. intros H. unfold attempt. run_effects. now rewrite H. Qed.

(** Failing providers are skipped one by one. *)
Lemma loop_skips_failures (start : Z) (prompt : string)
    (ps : list AIProvider) (w w' : World) :
  failing prompt ps w w' ->
  forall rest, loop start prompt (ps ++ rest) w = loop start prompt rest w'.
Proof.
  induction 1 as [w|p ps w w1 w2 e Hcall Hrest IH]; intros rest.
  - reflexivity.
  - simpl. unfold bindM at 1.
    rewrite (attempt_recovers start prompt p w w1 e Hcall).
    apply IH.
Qed.

(** The first provider whose call returns ends the loop. *)
Lemma loop_first_reply (start : Z) (prompt : string)
    (pre post : list AIProvider) (p : AIProvider) (w w1 w2 : World)
    (raw : JsValue) :
  failing prompt pre w w1 ->
  call p prompt w1 = (Return raw, w2) ->
  loop start prompt (pre ++ p :: post) w
  = (Return (insight_of self p (clock w2 - start)%Z
               (parseResponse JSON_parse raw)), w2).
Proof.
  intros Hfail Hcall.
  rewrite (loop_skips_failures start prompt pre w w1 Hfail).
  simpl. unfold bindM at 1.
  now rewrite (attempt_returns start prompt p w1 w2 raw Hcall).
Qed.



Lemma analyze_enabled (input : JsValue) (ctx : RuleContext) (w : World) :
  enabled self = true ->
  analyze JSON_parse JSON_stringify Number_toString self input ctx w
  = loop (clock w) (buildPrompt JSON_stringify input ctx) (providers self) w.
Proof. intros He. unfold analyze. rewrite He. reflexivity. Qed.

Lemma analyze_disabled (input : JsValue) (ctx : RuleContext) (w : World) :
  enabled self = false ->
  analyze JSON_parse JSON_stringify Number_toString self input ctx w
  = (Return (unanalyzed None None), w).
Proof. intros He. unfold analyze. rewrite He. reflexivity. Qed.


Lemma analyze_first_reply (input : JsValue) (ctx : RuleContext)
    (pre post : list AIProvider) (p : AIProvider) (w w1 w2 : World)
    (raw : JsValue) :
  enabled self = true ->
  providers self = pre ++ p :: post ->
  failing (buildPrompt JSON_stringify input ctx) pre w w1 ->
  call p (buildPrompt JSON_stringify input ctx) w1 = (Return raw, w2) ->
  analyze JSON_parse JSON_stringify Number_toString self input ctx w
  = (Return (insight_of self p (clock w2 - clock w)%Z
               (parseResponse JSON_parse raw)), w2)
  /\ posts (trace w2)
     = posts (trace w)
       ++ requests_for self (buildPrompt JSON_stringify input ctx) (pre ++ [p])
  /\ warned (trace w2)
     = warned (trace w) ++ map (fun q => (name q, model q)) pre.
Proof.
  intros He Hps Hfail Hcall.
  rewrite (analyze_enabled input ctx w He), Hps.
  split; [now apply loop_first_reply with (w1 := w1)|].
  destruct (all_fail_trace _ _ _ _ _ _ Hfail) as [Hp Hw].
  apply callProvider_trace in Hcall.
  rewrite Hcall, posts_app, warned_app, posts_Posted, warned_Posted.
  rewrite Hp, Hw, requests_for_app, app_nil_r, <- app_assoc.
  split; reflexivity.
Qed.

Lemma parseResponse_undecodable (raw : JsValue) (cleaned : string) :
  clean raw = Return cleaned ->
  JSON_parse cleaned = None ->
  parseResponse JSON_parse raw = invalid_response.
Proof.
  intros Hc Hp. unfold parseResponse, decode. rewrite Hc. simpl.
  now rewrite Hp.
Qed.

End AnalysisFacts.


(* ================================================================== *)
(** * Properties of decoded payloads *)
(* ================================================================== *)

Lemma lookup_is_json (k : string) (fields : list (string * JsValue)) :
  forallb (fun kv => is_json (snd kv)) fields = true ->
  lookup k fields = JUndefined \/ is_json (lookup k fields) = true.
Proof.
  unfold lookup. induction fields as [|[k' v] fields IH]; simpl.
  - now left.
  - intros H. apply andb_true_iff in H. destruct H as [Hv Hrest].
    destruct (k' =? k); simpl; [now right|now apply IH].
Qed.

Lemma payload_field_not_NaN (parsed : JsValue) (k : string) :
  is_json parsed = true -> payload_field parsed k <> JNumber NaN.
Proof.
  intros Hj. unfold payload_field.
  destruct parsed; simpl; try discriminate.
  destruct (lookup_is_json k fields Hj) as [H|H].
  - rewrite H. discriminate.
  - intros E. rewrite E in H. discriminate.
Qed.

(** On a decoded payload other than [null] no property read throws. *)
Lemma advice_of_payload_returns (parsed : JsValue) :
  is_json parsed = true ->
  parsed <> JNull ->
  advice_of_payload parsed
  = Return
      {| pa_recommendation :=
           validate_recommendation (payload_field parsed "recommendation");
         pa_confidence := clamp_confidence (payload_field parsed "confidence");
         pa_reasoning := js_or (payload_field parsed "reasoning") (JString "");
         pa_riskFactors :=
           js_or (payload_field parsed "risk_factors") (JArray []);
         pa_mitigatingFactors :=
           js_or (payload_field parsed "mitigating_factors") (JArray []) |}.
Proof.
  intros Hj Hn.
  destruct parsed; try discriminate; try congruence; reflexivity.
Qed.

Lemma clamp_confidence_in_unit_interval (v : JsValue) :
  v <> JNumber NaN -> in_unit_interval (clamp_confidence v).
Proof.
  intros Hv.
  assert (Hhalf : in_unit_interval (Fin (1 # 2)%Q))
    by (exists (1 # 2)%Q; repeat split; discriminate).
  destruct v; simpl; try exact Hhalf.
  apply clamp_in_unit_interval. congruence.
Qed.

(* ================================================================== *)
(** * The decision combiner *)
(* ================================================================== *)

(** C1. Under a SAFE_DENY rule outcome [combineDecision] answers DENY with
    source RULE_ABSOLUTE for every insight, present or not, and for every
    analyzer; the insight is not looked at, so any two insights give the
    same result. *)
Theorem safe_deny_is_absolute :
  forall (self self' : AIAnalyzer) (i i' : option AIInsight),
    finalDecision (combineDecision self SAFE_DENY i) = Some DENY
    /\ source (combineDecision self SAFE_DENY i) = RULE_ABSOLUTE
    /\ combineDecision self SAFE_DENY i = combineDecision self' SAFE_DENY i'.
Proof. intros self self' i i'. repeat split. Qed.





(* ================================================================== *)
(** * The constructor *)
(* ================================================================== *)

(** C9. A configured confidence threshold of 0 is replaced by 0.7, a
    configured timeout of 0 by 5000, and [enabled: false] leaves the
    analyzer disabled, as if the property were absent; whatever the
    configuration, the threshold of a constructed analyzer is never 0. *)
Theorem constructor_replaces_falsy_settings :
  forall (config : Config) (zero : Q),
    (zero == 0)%Q ->
    (cfg_confidenceThreshold config = Some (Fin zero) ->
     confidenceThreshold (new_AIAnalyzer (Some config)) = Fin (7 # 10)%Q)
    /\ (cfg_timeout config = Some (Fin zero) ->
        timeout (new_AIAnalyzer (Some config)) = num_of_Z 5000)
    /\ (cfg_enabled config = Some false ->
        enabled (new_AIAnalyzer (Some config)) = false)
    /\ confidenceThreshold (new_AIAnalyzer (Some config)) <> Fin zero
    /\ confidenceThreshold (new_AIAnalyzer None) = Fin (7 # 10)%Q.
Proof.
  intros config zero Hz.
  assert (Hfalsy : num_truthy (Fin zero) = false).
  { simpl. apply negb_false_iff. now apply Qeq_bool_iff. }
  repeat split.
  - intros H. simpl. rewrite H. unfold num_or. now rewrite Hfalsy.
  - intros H. simpl. rewrite H. unfold num_or. now rewrite Hfalsy.
  - intros H. simpl. now rewrite H.
  - intros H.
    assert (Ht : num_truthy (confidenceThreshold (new_AIAnalyzer (Some config))) = true)
      by (apply num_or_truthy; reflexivity).
    rewrite H in Ht. congruence.
Qed.

Lemma constructor_replaces_falsy_settings_witness :
  confidenceThreshold
    (new_AIAnalyzer (Some {| cfg_enabled := Some false;
                             cfg_providers := None;
                             cfg_timeout := Some (num_of_Z 0);
                             cfg_confidenceThreshold := Some (num_of_Z 0) |}))
  = Fin (7 # 10)%Q.
Proof.
  apply (constructor_replaces_falsy_settings
           {| cfg_enabled := Some false;
              cfg_providers := None;
              cfg_timeout := Some (num_of_Z 0);
              cfg_confidenceThreshold := Some (num_of_Z 0) |}
           (inject_Z 0)); reflexivity.
Defined.

(* ================================================================== *)
(** * Parsing a reply *)
(* ================================================================== *)

(** C6, as the specification words it, fails on the payload [null]: the
    text decodes, the payload has no [confidence], and yet the stored
    confidence is 0 and not 0.5, because reading a property of [null]
    throws and the [catch] block answers. *)
Lemma null_payload_gets_no_defaults :
  clean (JString "null") = Return "null"
  /\ Sample.JSON_parse "null" = Some JNull
  /\ is_json JNull = true
  /\ is_number (payload_field JNull "confidence") = false
  /\ pa_confidence (parseResponse Sample.JSON_parse (JString "null")) = num_of_Z 0
  /\ pa_confidence (parseResponse Sample.JSON_parse (JString "null"))
     <> Fin (1 # 2)%Q
  /\ pa_reasoning (parseResponse Sample.JSON_parse (JString "null"))
     = JString "Invalid AI response".
Proof.
  split; [reflexivity|].
  split; [reflexivity|].
  split; [reflexivity|].
  split; [reflexivity|].
  split; [reflexivity|].
  split; [discriminate|reflexivity].
Qed.

(** C6, amended.  For every reply whose cleaned text decodes to a payload
    other than [null]: the recommendation is the payload's when that is
    one of ALLOW, DENY, REVIEW and REVIEW otherwise; the confidence is 0.5
    when the payload's is not a number, and otherwise the payload's
    confidence brought into the interval from 0 to 1; absent risk and
    mitigating factors become the empty array.  The payload [null] gives
    the fixed answer of an invalid response.  In every case the stored
    confidence lies between 0 and 1. *)
Theorem decoded_payload_is_validated :
  forall (JSON_parse : string -> option JsValue) (raw : JsValue)
         (cleaned : string) (parsed : JsValue),
    clean raw = Return cleaned ->
    JSON_parse cleaned = Some parsed ->
    is_json parsed = true ->
    let advice := parseResponse JSON_parse raw in
    let field := payload_field parsed in
    (parsed <> JNull ->
     (field "recommendation" = JString "ALLOW" -> pa_recommendation advice = ALLOW)
     /\ (field "recommendation" = JString "DENY" -> pa_recommendation advice = DENY)
     /\ (field "recommendation" <> JString "ALLOW" ->
         field "recommendation" <> JString "DENY" ->
         pa_recommendation advice = REVIEW)
     /\ (is_number (field "confidence") = false ->
         pa_confidence advice = Fin (1 # 2)%Q)
     /\ (forall q : Q, field "confidence" = JNumber (Fin q) ->
           ((q < 0)%Q -> pa_confidence advice = num_of_Z 0)
           /\ ((1 < q)%Q -> pa_confidence advice = num_of_Z 1)
           /\ ((0 <= q)%Q -> (q <= 1)%Q -> num_eq (pa_confidence advice) (Fin q)))
     /\ (field "confidence" = JNumber PosInf -> pa_confidence advice = num_of_Z 1)
     /\ (field "confidence" = JNumber NegInf -> pa_confidence advice = num_of_Z 0)
     /\ (field "risk_factors" = JUndefined -> pa_riskFactors advice = JArray [])
     /\ (field "mitigating_factors" = JUndefined ->
         pa_mitigatingFactors advice = JArray []))
    /\ (parsed = JNull -> advice = invalid_response)
    /\ in_unit_interval (pa_confidence advice).
Proof.
  intros JSON_parse raw cleaned parsed Hclean Hparse Hjson advice field.
  assert (Hrun : advice = try_catchC (advice_of_payload parsed)
                            (fun _ => invalid_response)).
  { unfold advice, parseResponse, decode. rewrite Hclean. simpl.
    now rewrite Hparse. }
  split; [|split].
  - intros Hnn.
    rewrite (advice_of_payload_returns parsed Hjson Hnn) in Hrun.
    simpl in Hrun. rewrite Hrun. simpl. fold field.
    repeat split.
    + intros ->. reflexivity.
    + intros ->. reflexivity.
    + intros Ha Hd. destruct (field "recommendation"); try reflexivity.
      simpl. destruct (s =? "ALLOW") eqn:Ea.
      * apply String.eqb_eq in Ea. congruence.
      * destruct (s =? "DENY") eqn:Ed; [|reflexivity].
        apply String.eqb_eq in Ed. congruence.
    + intros Hnum. destruct (field "confidence"); try reflexivity. discriminate.
    + intros Hlt. rewrite H. simpl. now apply clamp_below.
    + intros Hgt. rewrite H. simpl. now apply clamp_above.
    + intros H0 H1. rewrite H. simpl. now apply clamp_inside.
    + intros ->. reflexivity.
    + intros ->. reflexivity.
    + intros ->. reflexivity.
    + intros ->. reflexivity.
  - intros ->. rewrite Hrun. reflexivity.
  - destruct parsed; try discriminate;
      try (rewrite Hrun; simpl;
           first [ apply clamp_confidence_in_unit_interval;
                   apply (payload_field_not_NaN _ "confidence" Hjson)
                 | exists 0%Q; repeat split;
                   [apply Qle_refl | discriminate]
                 | exists (1 # 2)%Q; repeat split; discriminate ]).
Qed.

Lemma decoded_payload_is_validated_witness :
  pa_recommendation
    (parseResponse Sample.JSON_parse (JString Sample.allow_text)) = ALLOW
  /\ in_unit_interval
       (pa_confidence
          (parseResponse Sample.JSON_parse (JString Sample.allow_text))).
Proof.
  destruct (decoded_payload_is_validated Sample.JSON_parse
              (JString Sample.allow_text) Sample.allow_text
              Sample.allow_payload eq_refl eq_refl eq_refl)
    as (Hfields & _ & Hunit).
  split; [|exact Hunit].
  assert (Hnn : Sample.allow_payload <> JNull) by discriminate.
  destruct (Hfields Hnn) as (Hallow & _).
  exact (Hallow eq_refl).
Defined.

(* ================================================================== *)
(** * Analysis with fallback *)
(* ================================================================== *)

Section AnalysisClaims.

Variable JSON_parse : string -> option JsValue.
Variable JSON_stringify : JsValue -> string.
Variable Number_toString : JsNum -> string.
Variable self : AIAnalyzer.

Local Abbreviation run := (analyze JSON_parse JSON_stringify Number_toString self).
Local Abbreviation call := (callProvider Number_toString self).
Local Abbreviation failing := (all_fail Number_toString self).
Local Abbreviation prompt_of := (buildPrompt JSON_stringify).


(** C5. A reply whose cleaned text does not decode gives the fixed advice
    REVIEW, confidence 0, "Invalid AI response"; [parseResponse] is a
    total function, it does not throw.  Within [analyze], when the
    providers before [p] failed and the call to [p] returned such a
    reply, the result is an analyzed insight of [p] carrying that advice,
    and the world is the one the call to [p] left: the requests made are
    those of the providers up to [p], none of a later one. *)
Theorem undecodable_reply_is_accepted_as_advice :
  (forall (raw : JsValue) (cleaned : string),
      clean raw = Return cleaned ->
      JSON_parse cleaned = None ->
      parseResponse JSON_parse raw
      = {| pa_recommendation := REVIEW;
           pa_confidence := num_of_Z 0;
           pa_reasoning := JString "Invalid AI response";
           pa_riskFactors := JArray [];
           pa_mitigatingFactors := JArray [] |})
  /\ (forall (input : JsValue) (ctx : RuleContext)
             (pre post : list AIProvider) (p : AIProvider)
             (w w1 w2 : World) (raw : JsValue) (cleaned : string),
         enabled self = true ->
         providers self = pre ++ p :: post ->
         failing (prompt_of input ctx) pre w w1 ->
         call p (prompt_of input ctx) w1 = (Return raw, w2) ->
         clean raw = Return cleaned ->
         JSON_parse cleaned = None ->
         exists i : AIInsight,
           run input ctx w = (Return i, w2)
           /\ analyzed i = true
           /\ provider i = Some (name p)
           /\ recommendation i = Some REVIEW
           /\ confidence i = Some (num_of_Z 0)
           /\ reasoning i = JString "Invalid AI response"
           /\ posts (trace w2)
              = posts (trace w)
                ++ requests_for self (prompt_of input ctx) (pre ++ [p])).
Proof.
  split.
  - intros raw cleaned Hc Hp. now apply parseResponse_undecodable with cleaned.
  - intros input ctx pre post p w w1 w2 raw cleaned He Hps Hfail Hcall Hc Hp.
    destruct (analyze_first_reply JSON_parse JSON_stringify Number_toString
                self input ctx pre post p w w1 w2 raw He Hps Hfail Hcall)
      as (Hrun & Hposts & _).
    rewrite (parseResponse_undecodable JSON_parse raw cleaned Hc Hp) in Hrun.
    eexists. split; [exact Hrun|].
    repeat split. exact Hposts.
Qed.



End AnalysisClaims.


Lemma undecodable_reply_is_accepted_as_advice_witness :
  parseResponse Sample.JSON_parse (JString "not json") = invalid_response
  /\ exists (i : AIInsight) (w' : World),
       analyze Sample.JSON_parse Sample.JSON_stringify Sample.Number_toString
         Sample.analyzer Sample.input Sample.context Sample.world_not_json
       = (Return i, w')
       /\ provider i = Some "gemini"
       /\ confidence i = Some (num_of_Z 0)
       /\ length (posts (trace w')) = 1%nat.
Proof.
  destruct (undecodable_reply_is_accepted_as_advice Sample.JSON_parse
              Sample.JSON_stringify Sample.Number_toString Sample.analyzer)
    as (Hparse & Hrun).
  split.
  - exact (Hparse (JString "not json") "not json" eq_refl eq_refl).
  - assert (Hfail : exists w1,
               all_fail Sample.Number_toString Sample.analyzer Sample.prompt
                 [Sample.mystery] Sample.world_not_json w1
               /\ exists w2,
                    callProvider Sample.Number_toString Sample.analyzer
                      Sample.gemini Sample.prompt w1
                    = (Return (JString "not json"), w2)).
    { eexists. split.
      - eapply all_fail_cons; [reflexivity|]. apply all_fail_nil.
      - eexists. reflexivity. }
    destruct Hfail as (w1 & Hfail & w2 & Hcall).
    destruct (Hrun Sample.input Sample.context [Sample.mystery] [Sample.claude]
                Sample.gemini Sample.world_not_json w1 w2 (JString "not json")
                "not json" eq_refl eq_refl Hfail Hcall eq_refl eq_refl)
      as (i & Hi & _ & Hprov & _ & Hconf & _ & Hposts).
    exists i, w2. split; [exact Hi|]. split; [exact Hprov|].
    split; [exact Hconf|]. rewrite Hposts. reflexivity.
Defined.



(* ================================================================== *)
(** * The decision endpoint *)
(* ================================================================== *)

Section RouteClaims.

Variable decide : JsValue -> JsValue -> M JsValue.
Variable ENGINE_VERSION : JsValue.
Variable toISOString : Z -> string.

Local Abbreviation handler := (post_decide decide ENGINE_VERSION toISOString).

(** C8. When the decision service throws, the handler answers with status
    500 and a body whose decision is final ERROR, source SYSTEM_ERROR and
    whose error object carries the request id of the caller; the same
    holds when the value the service returned cannot be read.  Whatever
    the service does, the handler itself never throws and sends exactly
    one response. *)
Theorem pipeline_failure_becomes_an_error_response :
  (forall (req : Request) (w w1 : World) (e : JsError),
      decide (body req) (requestId req) w = (Throw e, w1) ->
      exists (payload : JsValue) (w' : World),
        handler req w = (Return tt, w')
        /\ responses (trace w') = responses (trace w1) ++ [(500%Z, payload)]
        /\ read_path payload ["decision"]
           = JObject [("final", JString "ERROR");
                      ("source", JString "SYSTEM_ERROR")]
        /\ read_path payload ["error"; "requestId"] = requestId req)
  /\ (forall (req : Request) (w w1 : World) (result : JsValue) (e : JsError),
         decide (body req) (requestId req) w = (Return result, w1) ->
         (decision <- get_prop result "decision" ;;
          get_prop decision "final")%comp = Throw e ->
         exists (payload : JsValue) (w' : World),
           handler req w = (Return tt, w')
           /\ responses (trace w') = responses (trace w1) ++ [(500%Z, payload)]
           /\ read_path payload ["decision"; "final"] = JString "ERROR"
           /\ read_path payload ["decision"; "source"] = JString "SYSTEM_ERROR"
           /\ read_path payload ["error"; "requestId"] = requestId req)
  /\ (forall (req : Request) (w : World),
         exists (status : Z) (payload : JsValue) (w' : World),
           handler req w = (Return tt, w')
           /\ responses (trace w')
              = responses (trace (snd (decide (body req) (requestId req) w)))
                ++ [(status, payload)]).
Proof.
  split; [|split].
  - intros req w w1 e Hd.
    eexists; eexists. split; [|split; [|split]].
    + unfold post_decide, try_catch. unfold bindM at 1. rewrite Hd.
      run_effects. reflexivity.
    + simpl. rewrite !responses_app. simpl. now rewrite !app_nil_r.
    + reflexivity.
    + reflexivity.
  - intros req w w1 result e Hd Hread.
    eexists; eexists. split; [|split; [|split; [|split]]].
    + unfold post_decide, try_catch. unfold bindM at 1. rewrite Hd.
      unfold bindM at 1. unfold liftC. rewrite Hread.
      run_effects. reflexivity.
    + simpl. rewrite !responses_app. simpl. now rewrite !app_nil_r.
    + reflexivity.
    + reflexivity.
    + reflexivity.
  - intros req w. unfold post_decide, try_catch. unfold bindM at 1.
    destruct (decide (body req) (requestId req) w) as [[result|e] w1]; simpl.
    + unfold bindM at 1. unfold liftC.
      destruct (decision <- get_prop result "decision" ;;
                get_prop decision "final")%comp as [verdict|e].
      * run_effects. eexists; eexists; eexists. split; [reflexivity|].
        simpl. rewrite responses_app. reflexivity.
      * run_effects. eexists; eexists; eexists. split; [reflexivity|].
        simpl. rewrite !responses_app. simpl. now rewrite !app_nil_r.
    + run_effects. eexists; eexists; eexists. split; [reflexivity|].
      simpl. rewrite !responses_app. simpl. now rewrite !app_nil_r.
Qed.

End RouteClaims.

Lemma pipeline_failure_becomes_an_error_response_witness :
  exists w' : World,
    post_decide Sample.decide_fails Sample.ENGINE_VERSION Sample.toISOString
      Sample.request Sample.world_down
    = (Return tt, w')
    /\ exists payload : JsValue,
         responses (trace w') = [(500%Z, payload)]
         /\ read_path payload ["decision"; "final"] = JString "ERROR"
         /\ read_path payload ["error"; "requestId"] = JString "req_1_abc".
Proof.
  destruct (pipeline_failure_becomes_an_error_response Sample.decide_fails
              Sample.ENGINE_VERSION Sample.toISOString) as (Hthrow & _).
  destruct (Hthrow Sample.request Sample.world_down Sample.world_down
              (Error "rule engine crashed") eq_refl)
    as (payload & w' & Hrun & Hresp & Hdecision & Hid).
  exists w'. split; [exact Hrun|].
  exists payload. split; [exact Hresp|]. split; [|exact Hid].
  simpl in *. unfold payload_field in *. now rewrite Hdecision.
Defined.

(* ================================================================== *)
(** * More on the decision combiner *)
(* ================================================================== *)

Lemma safe_allow_cases (self : AIAnalyzer) (i : option AIInsight) :
  combineDecision self SAFE_ALLOW i = decision ALLOW RULE
  \/ combineDecision self SAFE_ALLOW i = decision REVIEW AI_FLAGGED_REVIEW.
Proof.
  destruct i as [i|]; simpl; [|now left].
  destruct (analyzed i && is_DENY (recommendation i)
            && confidence_ge (confidence i) (confidenceThreshold self));
    [now right|now left].
Qed.

(** X1. Under a SAFE_ALLOW outcome the advisory can only hold a request
    back: the result is ALLOW from RULE or REVIEW from AI_FLAGGED_REVIEW,
    never DENY, and it carries no confidence. *)
Theorem safe_allow_is_never_denied :
  forall (self : AIAnalyzer) (i : option AIInsight),
    (combineDecision self SAFE_ALLOW i = decision ALLOW RULE
     \/ combineDecision self SAFE_ALLOW i = decision REVIEW AI_FLAGGED_REVIEW)
    /\ finalDecision (combineDecision self SAFE_ALLOW i) <> Some DENY
    /\ fd_confidence (combineDecision self SAFE_ALLOW i) = None.
Proof.
  intros self i. split; [apply safe_allow_cases|].
  destruct (safe_allow_cases self i) as [H|H]; rewrite H;
    split; [discriminate|reflexivity|discriminate|reflexivity].
Qed.

(** X2. The two advisory branches read different evidence.  Under
    GREY_ZONE the result depends on the insight's [analyzed] flag, its
    [meetsConfidenceThreshold] flag, its recommendation and its
    confidence, not on the analyzer's threshold; under SAFE_ALLOW it
    depends on [analyzed], the recommendation, the confidence and the
    threshold, not on the [meetsConfidenceThreshold] flag. *)
Theorem branches_read_different_evidence :
  (forall (self self' : AIAnalyzer) (i i' : AIInsight),
      analyzed i = analyzed i' ->
      meetsConfidenceThreshold i = meetsConfidenceThreshold i' ->
      recommendation i = recommendation i' ->
      confidence i = confidence i' ->
      combineDecision self GREY_ZONE (Some i)
      = combineDecision self' GREY_ZONE (Some i'))
  /\ (forall (self : AIAnalyzer) (i i' : AIInsight),
         analyzed i = analyzed i' ->
         recommendation i = recommendation i' ->
         confidence i = confidence i' ->
         combineDecision self SAFE_ALLOW (Some i)
         = combineDecision self SAFE_ALLOW (Some i')).
Proof.
  split.
  - intros self self' i i' Ha Hm Hr Hc. simpl. now rewrite Ha, Hm, Hr, Hc.
  - intros self i i' Ha Hr Hc. simpl. now rewrite Ha, Hr, Hc.
Qed.

Lemma branches_read_different_evidence_witness :
  combineDecision Sample.analyzer GREY_ZONE (Some Sample.hesitant)
  = combineDecision (new_AIAnalyzer None) GREY_ZONE (Some Sample.hesitant)
  /\ combineDecision Sample.analyzer SAFE_ALLOW (Some Sample.alarmed)
     = combineDecision Sample.analyzer SAFE_ALLOW
         (Some (insight_of (new_AIAnalyzer (Some
                  {| cfg_enabled := None; cfg_providers := None;
                     cfg_timeout := None;
                     cfg_confidenceThreshold := Some (Fin (9 # 10)%Q) |}))
                  Sample.claude 100 (Sample.advice DENY (85 # 100)%Q))).
Proof.
  destruct branches_read_different_evidence as (Hgrey & Hallow).
  split.
  - apply Hgrey; reflexivity.
  - apply Hallow; reflexivity.
Defined.

(** X3. Where a final DENY and a final ALLOW come from: DENY needs a
    SAFE_DENY outcome, or a GREY_ZONE outcome with an analyzed insight
    that meets the threshold and recommends DENY; ALLOW needs a
    SAFE_ALLOW outcome, or a GREY_ZONE outcome with an analyzed insight
    that meets the threshold and recommends ALLOW. *)
Theorem final_verdicts_have_a_ground :
  forall (self : AIAnalyzer) (o : RuleOutcome) (i : option AIInsight),
    (finalDecision (combineDecision self o i) = Some DENY ->
     o = SAFE_DENY
     \/ (o = GREY_ZONE
         /\ exists i0 : AIInsight,
              i = Some i0 /\ analyzed i0 = true
              /\ meetsConfidenceThreshold i0 = true
              /\ recommendation i0 = Some DENY))
    /\ (finalDecision (combineDecision self o i) = Some ALLOW ->
        o = SAFE_ALLOW
        \/ (o = GREY_ZONE
            /\ exists i0 : AIInsight,
                 i = Some i0 /\ analyzed i0 = true
                 /\ meetsConfidenceThreshold i0 = true
                 /\ recommendation i0 = Some ALLOW)).
Proof.
  intros self o i. split; intros H.
  - destruct o; [| now left |].
    + exfalso. destruct (safe_allow_cases self i) as [E|E];
        rewrite E in H; discriminate.
    + right. split; [reflexivity|]. destruct i as [i|]; simpl in H; [|discriminate].
      destruct (analyzed i) eqn:Ha; simpl in H; [|discriminate].
      destruct (meetsConfidenceThreshold i) eqn:Hm; simpl in H; [|discriminate].
      exists i. repeat split; assumption.
  - destruct o; [now left | discriminate |].
    right. split; [reflexivity|]. destruct i as [i|]; simpl in H; [|discriminate].
    destruct (analyzed i) eqn:Ha; simpl in H; [|discriminate].
    destruct (meetsConfidenceThreshold i) eqn:Hm; simpl in H; [|discriminate].
    exists i. repeat split; assumption.
Qed.

Lemma final_verdicts_have_a_ground_witness :
  SAFE_ALLOW = SAFE_ALLOW
  \/ (SAFE_ALLOW = GREY_ZONE
      /\ exists i0 : AIInsight,
           Some Sample.confident = Some i0 /\ analyzed i0 = true
           /\ meetsConfidenceThreshold i0 = true
           /\ recommendation i0 = Some ALLOW).
Proof.
  apply (final_verdicts_have_a_ground Sample.analyzer SAFE_ALLOW
           (Some Sample.confident)).
  reflexivity.
Defined.

(** X4. A confidence is attached only to a decision whose source is
    AI_RECOMMENDED, and that source arises only under GREY_ZONE from an
    analyzed insight that meets the threshold; the decision then is the
    insight's recommendation, which is left undefined when the insight
    has none. *)
Theorem confidence_marks_a_followed_recommendation :
  forall (self : AIAnalyzer) (o : RuleOutcome) (i : option AIInsight),
    (fd_confidence (combineDecision self o i) <> None ->
     source (combineDecision self o i) = AI_RECOMMENDED)
    /\ (source (combineDecision self o i) = AI_RECOMMENDED ->
        o = GREY_ZONE
        /\ exists i0 : AIInsight,
             i = Some i0 /\ analyzed i0 = true
             /\ meetsConfidenceThreshold i0 = true
             /\ finalDecision (combineDecision self o i) = recommendation i0
             /\ fd_confidence (combineDecision self o i) = confidence i0)
    /\ (finalDecision (combineDecision self o i) = None ->
        source (combineDecision self o i) = AI_RECOMMENDED).
Proof.
  intros self o i.
  assert (Hallow : forall x,
             source (combineDecision self SAFE_ALLOW x) <> AI_RECOMMENDED).
  { intros x. destruct (safe_allow_cases self x) as [H|H];
      rewrite H; discriminate. }
  destruct o.
  - pose proof (safe_allow_cases self i) as H.
    split; [|split].
    + intros Hx. exfalso. apply Hx.
      destruct H as [H|H]; rewrite H; reflexivity.
    + intros Hx. exfalso. now apply (Hallow i).
    + intros Hx. destruct H as [H|H]; rewrite H in Hx; discriminate.
  - repeat split; simpl; try congruence; discriminate.
  - destruct i as [i|]; simpl.
    + destruct (analyzed i) eqn:Ha; simpl.
      * destruct (meetsConfidenceThreshold i) eqn:Hm; simpl.
        -- repeat split. exists i. repeat split; assumption.
        -- repeat split; try congruence; discriminate.
      * repeat split; try congruence; discriminate.
    + repeat split; try congruence; discriminate.
Qed.

Lemma confidence_marks_a_followed_recommendation_witness :
  source (combineDecision Sample.analyzer GREY_ZONE (Some Sample.confident))
  = AI_RECOMMENDED.
Proof.
  destruct (confidence_marks_a_followed_recommendation Sample.analyzer
              GREY_ZONE (Some Sample.confident)) as (Hmark & _).
  apply Hmark. discriminate.
Defined.

(* ================================================================== *)
(** * More on the constructor *)
(* ================================================================== *)

(** X29. The constructor keeps every truthy setting as it is given: a
    provider list, even an empty one, a timeout and a threshold that are
    neither 0 nor NaN, and [enabled: true].  Whatever the configuration,
    the timeout and the threshold of the analyzer are neither 0 nor NaN,
    so that the HTTP client is never called without a timeout. *)
Theorem constructor_keeps_truthy_settings :
  forall config : Config,
    (forall l : list AIProvider,
        cfg_providers config = Some l ->
        providers (new_AIAnalyzer (Some config)) = l)
    /\ (forall n : JsNum,
           cfg_timeout config = Some n -> num_truthy n = true ->
           timeout (new_AIAnalyzer (Some config)) = n)
    /\ (forall n : JsNum,
           cfg_confidenceThreshold config = Some n -> num_truthy n = true ->
           confidenceThreshold (new_AIAnalyzer (Some config)) = n)
    /\ (cfg_enabled config = Some true ->
        enabled (new_AIAnalyzer (Some config)) = true)
    /\ num_truthy (timeout (new_AIAnalyzer (Some config))) = true
    /\ num_truthy (confidenceThreshold (new_AIAnalyzer (Some config))) = true
    /\ (forall (p : AIProvider) (prompt : string) (request : HttpRequest),
           build_request (new_AIAnalyzer (Some config)) p prompt = Return request ->
           num_truthy (req_timeout request) = true).
Proof.
  intros config.
  assert (Ht : num_truthy (timeout (new_AIAnalyzer (Some config))) = true)
    by (apply num_or_truthy; reflexivity).
  split; [|split; [|split; [|split; [|split; [|split]]]]].
  - intros l H. cbn [new_AIAnalyzer providers]. now rewrite H.
  - intros n H Hn. cbn [new_AIAnalyzer timeout]. rewrite H.
    unfold num_or. now rewrite Hn.
  - intros n H Hn. cbn [new_AIAnalyzer confidenceThreshold]. rewrite H.
    unfold num_or. now rewrite Hn.
  - intros H. cbn [new_AIAnalyzer enabled]. now rewrite H.
  - exact Ht.
  - apply num_or_truthy. reflexivity.
  - intros p prompt request H.
    now rewrite (build_request_timeout _ prompt p request H).
Qed.

Lemma constructor_keeps_truthy_settings_witness :
  confidenceThreshold
    (new_AIAnalyzer (Some {| cfg_enabled := Some true;
                             cfg_providers := Some [];
                             cfg_timeout := Some (num_of_Z 250);
                             cfg_confidenceThreshold := Some (Fin (9 # 10)%Q) |}))
  = Fin (9 # 10)%Q.
Proof.
  destruct (constructor_keeps_truthy_settings
              {| cfg_enabled := Some true;
                 cfg_providers := Some [];
                 cfg_timeout := Some (num_of_Z 250);
                 cfg_confidenceThreshold := Some (Fin (9 # 10)%Q) |})
    as (_ & _ & Hthreshold & _).
  exact (Hthreshold (Fin (9 # 10)%Q) eq_refl eq_refl).
Defined.

(* ================================================================== *)
(** * Status of the analyzer *)
(* ================================================================== *)



(* ================================================================== *)
(** * CORS middleware *)
(* ================================================================== *)

Lemma includes_In (s : string) (l : list string) :
  includes s l = true <-> In s l.
Proof.
  unfold includes. rewrite existsb_exists. split.
  - intros (x & Hx & He). apply String.eqb_eq in He. now subst.
  - intros H. exists s. split; [exact H|apply String.eqb_refl].
Qed.

Lemma allowedOrigins_In (FRONTEND_URL : option string) (v : string) :
  In v (allowedOrigins FRONTEND_URL)
  <-> v = "http://localhost:5173" \/ v = "http://127.0.0.1:5173"
      \/ v = "http://decision.local"
      \/ (FRONTEND_URL = Some v /\ v <> "").
Proof.
  unfold allowedOrigins, filter_Boolean. simpl. split.
  - intros [H|[H|[H|H]]]; [now left; symmetry | now right; left; symmetry
                           | now right; right; left; symmetry |].
    right; right; right. destruct FRONTEND_URL as [u|]; [|destruct H].
    destruct (u =? "") eqn:E; simpl in H; [destruct H|].
    destruct H as [H|[]]. subst. split; [reflexivity|].
    now apply String.eqb_neq.
  - intros [H|[H|[H|[H Hne]]]]; subst; [now left | now right; left
                                        | now right; right; left |].
    right; right; right. apply String.eqb_neq in Hne. rewrite Hne. now left.
Qed.

(** X6. [corsMiddleware] sets Access-Control-Allow-Origin exactly when
    the request has a non-empty Origin header that is one of the three
    fixed origins or the non-empty FRONTEND_URL, and then to that very
    origin; Access-Control-Allow-Credentials is set to "true" exactly
    when the origin header is. *)
Theorem cors_grants_only_listed_origins :
  forall (FRONTEND_URL : option string) (req : CorsRequest) (v : string),
    (In ("Access-Control-Allow-Origin", v)
        (fst (corsMiddleware FRONTEND_URL req))
     <-> cors_origin req = Some v /\ v <> ""
         /\ (v = "http://localhost:5173" \/ v = "http://127.0.0.1:5173"
             \/ v = "http://decision.local"
             \/ (FRONTEND_URL = Some v /\ v <> "")))
    /\ (In ("Access-Control-Allow-Credentials", v)
           (fst (corsMiddleware FRONTEND_URL req))
        <-> v = "true"
            /\ exists o : string,
                 In ("Access-Control-Allow-Origin", o)
                    (fst (corsMiddleware FRONTEND_URL req))).
Proof.
  intros env req v. unfold corsMiddleware. cbn [fst].
  destruct (cors_origin req) as [origin|] eqn:Ho.
  - destruct (negb (origin =? "") && includes origin (allowedOrigins env))
      eqn:Hg.
    + apply andb_true_iff in Hg. destruct Hg as [Hne Hin].
      apply negb_true_iff, String.eqb_neq in Hne.
      apply includes_In, allowedOrigins_In in Hin.
      split; split.
      * intros [H|[H|[H|[H|[H|[]]]]]]; try discriminate.
        injection H as <-. repeat split; assumption.
      * intros ([= <-] & _ & _). now left.
      * intros [H|[H|[H|[H|[H|[]]]]]]; try discriminate.
        injection H as <-. split; [reflexivity|]. exists origin. now left.
      * intros (-> & _). right. now left.
    + split; split.
      * intros [H|[H|[H|[]]]]; discriminate.
      * intros ([= <-] & Hne & Hin). exfalso.
        apply String.eqb_neq in Hne. rewrite Hne in Hg.
        cbn [negb andb] in Hg.
        assert (Hyes : includes origin (allowedOrigins env) = true)
          by (apply includes_In, allowedOrigins_In; exact Hin).
        congruence.
      * intros [H|[H|[H|[]]]]; discriminate.
      * intros (_ & o & [H|[H|[H|[]]]]); discriminate.
  - split; split.
    + intros [H|[H|[H|[]]]]; discriminate.
    + intros (H & _). discriminate.
    + intros [H|[H|[H|[]]]]; discriminate.
    + intros (_ & o & [H|[H|[H|[]]]]); discriminate.
Qed.

(** X7. Whatever the origin, [corsMiddleware] sets the three fixed
    headers, after the two of a granted origin if any; it ends the
    response with 204 without calling [next] exactly when the method is
    OPTIONS, and calls [next] otherwise. *)
Theorem cors_always_sets_the_fixed_headers :
  forall (FRONTEND_URL : option string) (req : CorsRequest),
    (exists granted : list (string * string),
        fst (corsMiddleware FRONTEND_URL req)
        = granted
          ++ [ ("Access-Control-Allow-Methods",
                "GET, POST, PUT, DELETE, OPTIONS");
               ("Access-Control-Allow-Headers",
                "Content-Type, Authorization, X-Requested-With, X-Canary");
               ("Access-Control-Max-Age", "86400") ]
        /\ (length granted = 0 \/ length granted = 2)%nat)
    /\ (snd (corsMiddleware FRONTEND_URL req) = Ends 204
        <-> cors_method req = "OPTIONS")
    /\ (snd (corsMiddleware FRONTEND_URL req) = CallsNext
        <-> cors_method req <> "OPTIONS").
Proof.
  intros env req. unfold corsMiddleware. cbn [fst snd].
  split; [|split].
  - eexists. split; [reflexivity|].
    destruct (cors_origin req) as [origin|]; [|now left].
    destruct (negb (origin =? "") && includes origin (allowedOrigins env));
      [now right|now left].
  - destruct (cors_method req =? "OPTIONS") eqn:E.
    + apply String.eqb_eq in E. now split.
    + apply String.eqb_neq in E. split; [discriminate|contradiction].
  - destruct (cors_method req =? "OPTIONS") eqn:E.
    + apply String.eqb_eq in E. split; [discriminate|contradiction].
    + apply String.eqb_neq in E. now split.
Qed.

Lemma cors_grants_only_listed_origins_witness :
  In ("Access-Control-Allow-Origin", "https://app.example")
     (fst (corsMiddleware (Some "https://app.example")
             {| cors_origin := Some "https://app.example";
                cors_method := "POST" |}))
  /\ ~ In ("Access-Control-Allow-Origin", "https://evil.example")
        (fst (corsMiddleware (Some "https://app.example")
                {| cors_origin := Some "https://evil.example";
                   cors_method := "POST" |})).
Proof.
  split.
  - apply (cors_grants_only_listed_origins (Some "https://app.example")
             {| cors_origin := Some "https://app.example";
                cors_method := "POST" |} "https://app.example").
    split; [reflexivity|]. split; [discriminate|].
    right; right; right. split; [reflexivity|discriminate].
  - intros H.
    apply (cors_grants_only_listed_origins (Some "https://app.example")
             {| cors_origin := Some "https://evil.example";
                cors_method := "POST" |} "https://evil.example") in H.
    destruct H as (_ & _ & [H|[H|[H|[H _]]]]); discriminate.
Defined.

Lemma cors_always_sets_the_fixed_headers_witness :
  snd (corsMiddleware None {| cors_origin := None; cors_method := "OPTIONS" |})
  = Ends 204
  /\ snd (corsMiddleware None {| cors_origin := None; cors_method := "options" |})
     = CallsNext.
Proof.
  split.
  - apply (cors_always_sets_the_fixed_headers None
             {| cors_origin := None; cors_method := "OPTIONS" |}).
    reflexivity.
  - apply (cors_always_sets_the_fixed_headers None
             {| cors_origin := None; cors_method := "options" |}).
    discriminate.
Defined.

(* ================================================================== *)
(** * More on cleaning a reply *)
(* ================================================================== *)

Lemma prefix_cons (a c : ascii) (p s : string) :
  prefix (String a p) (String c s) = ((a =? c)%char && prefix p s)%bool.
Proof.
  simpl. destruct (ascii_dec a c) as [->|Hne].
  - now rewrite Ascii.eqb_refl.
  - apply Ascii.eqb_neq in Hne. now rewrite Hne.
Qed.

Lemma prefix_nil (s : string) : prefix "" s = true.
Proof. destruct s; reflexivity. Qed.

Lemma prefix_of_prefix (p q s : string) :
  prefix (p ++ q) s = true -> prefix p s = true.
Proof.
  revert s. induction p as [|a p IH]; intros s H; [apply prefix_nil|].
  destruct s as [|c s]; [discriminate|].
  change ((String a p ++ q)%string) with (String a (p ++ q)) in H.
  rewrite prefix_cons in *. apply andb_true_iff in H. destruct H as [Ha Hp].
  rewrite Ha. simpl. now apply IH.
Qed.


(** One step of the scan. *)
Lemma strip_fences_step (c : ascii) (rest : string) :
  strip_fences_from 0 (String c rest)
  = if prefix "```json" (String c rest) then strip_fences_from 6 rest
    else if prefix "```" (String c rest) then strip_fences_from 2 rest
    else String c (strip_fences_from 0 rest).
Proof. reflexivity. Qed.

Lemma no_fence_no_json_fence (s : string) :
  prefix "```" s = false -> prefix "```json" s = false.
Proof.
  intros H. destruct (prefix "```json" s) eqn:E; [|reflexivity].
  apply (prefix_of_prefix "```" "json" s) in E. congruence.
Qed.

Lemma strip_fences_keeps (c : ascii) (rest : string) :
  prefix "```" (String c rest) = false ->
  strip_fences_from 0 (String c rest) = String c (strip_fences_from 0 rest).
Proof.
  intros H. rewrite strip_fences_step, (no_fence_no_json_fence _ H), H.
  reflexivity.
Qed.

(** A text without fence is left as it is. *)
Lemma strip_fences_id (s : string) :
  has_fence s = false -> strip_fences_from 0 s = s.
Proof.
  induction s as [|c s IH]; [reflexivity|].
  intros H. cbn [has_fence] in H. apply orb_false_iff in H.
  destruct H as [Hp Hs].
  rewrite (strip_fences_keeps c s Hp). now rewrite IH.
Qed.

Lemma has_backtick_app (a b : string) :
  has_backtick (a ++ b) = (has_backtick a || has_backtick b)%bool.
Proof.
  induction a as [|c a IH]; [reflexivity|].
  simpl. rewrite IH. now rewrite orb_assoc.
Qed.

Lemma no_backtick_no_fence (s : string) :
  has_backtick s = false -> has_fence s = false.
Proof.
  induction s as [|c s IH]; [reflexivity|].
  intros H. cbn [has_backtick] in H. apply orb_false_iff in H.
  destruct H as [Hc Hs]. cbn [has_fence].
  rewrite (IH Hs), orb_false_r, prefix_cons.
  rewrite Ascii.eqb_sym, Hc. reflexivity.
Qed.

(** The scan copies a text without backtick and goes on after it. *)
Lemma strip_fences_app (s t : string) :
  has_backtick s = false ->
  strip_fences_from 0 (s ++ t) = (s ++ strip_fences_from 0 t)%string.
Proof.
  induction s as [|c s IH]; [reflexivity|].
  intros H. cbn [has_backtick] in H. apply orb_false_iff in H.
  destruct H as [Hc Hs].
  change ((String c s ++ t)%string) with (String c (s ++ t)).
  rewrite strip_fences_keeps.
  - rewrite (IH Hs). reflexivity.
  - rewrite prefix_cons, Ascii.eqb_sym, Hc. reflexivity.
Qed.










Lemma trimEnd_all_whitespace (t : string) :
  all_whitespace t = true -> trimEnd t = "".
Proof.
  induction t as [|c t IH]; [reflexivity|].
  simpl. intros H. apply andb_true_iff in H. destruct H as [Hc Ht].
  now rewrite (IH Ht), Hc.
Qed.

Lemma trimEnd_app (s t : string) :
  all_whitespace t = true -> trimEnd (s ++ t) = trimEnd s.
Proof.
  intros Ht. induction s as [|c s IH]; simpl.
  - now apply trimEnd_all_whitespace.
  - now rewrite IH.
Qed.

Lemma trimStart_all_whitespace (t : string) :
  all_whitespace t = true -> trimStart t = "".
Proof.
  induction t as [|c t IH]; [reflexivity|].
  simpl. intros H. apply andb_true_iff in H. destruct H as [Hc Ht].
  rewrite Hc. now apply IH.
Qed.

Lemma trim_app (s t : string) :
  all_whitespace t = true -> trim (s ++ t) = trim s.
Proof.
  intros Ht. unfold trim. induction s as [|c s IH]; simpl.
  - now rewrite (trimStart_all_whitespace t Ht).
  - destruct (is_whitespace c); [exact IH|].
    change (String c (s ++ t)) with ((String c s ++ t)%string).
    now apply trimEnd_app.
Qed.





(** X8. A reply wrapped in a Markdown fence cleans to the same text as
    the bare reply: for a text without backtick, the text alone, the text
    between [```json] and [```] lines, and the text between two [```]
    lines all clean to the trimmed text, so [parseResponse] gives the
    same advice for the three. *)
Theorem fenced_reply_cleans_to_the_bare_text :
  forall (JSON_parse : string -> option JsValue) (s : string),
    has_backtick s = false ->
    clean (JString s) = Return (trim s)
    /\ clean (JString ("```json" ++ nl ++ s ++ nl ++ "```")) = Return (trim s)
    /\ clean (JString ("```" ++ nl ++ s ++ nl ++ "```")) = Return (trim s)
    /\ parseResponse JSON_parse (JString ("```json" ++ nl ++ s ++ nl ++ "```"))
       = parseResponse JSON_parse (JString s)
    /\ parseResponse JSON_parse (JString ("```" ++ nl ++ s ++ nl ++ "```"))
       = parseResponse JSON_parse (JString s).
Proof.
  intros JSON_parse s Hs.
  assert (Hbare : clean (JString s) = Return (trim s)).
  { unfold clean, strip_fences.
    now rewrite (strip_fences_id s (no_backtick_no_fence s Hs)). }
  assert (Hinner : strip_fences_from 0 (nl ++ s ++ nl ++ "```")
                   = (nl ++ s ++ nl)%string).
  { change ((nl ++ s ++ nl ++ "```")%string)
      with (String (ascii_of_nat 10) (s ++ nl ++ "```")).
    rewrite strip_fences_keeps by reflexivity.
    rewrite (strip_fences_app s (nl ++ "```") Hs). reflexivity. }
  assert (Htrim : trim (nl ++ s ++ nl) = trim s).
  { unfold trim at 1. change ((nl ++ s ++ nl)%string)
      with (String (ascii_of_nat 10) (s ++ nl)).
    change (trimStart (String (ascii_of_nat 10) (s ++ nl)))
      with (trimStart (s ++ nl)).
    now apply (trim_app s nl). }
  assert (Hjson : clean (JString ("```json" ++ nl ++ s ++ nl ++ "```"))
                  = Return (trim s)).
  { unfold clean, strip_fences.
    change (strip_fences_from 0 ("```json" ++ nl ++ s ++ nl ++ "```"))
      with (strip_fences_from 0 (nl ++ s ++ nl ++ "```")).
    now rewrite Hinner, Htrim. }
  assert (Hplain : clean (JString ("```" ++ nl ++ s ++ nl ++ "```"))
                   = Return (trim s)).
  { unfold clean, strip_fences.
    change (strip_fences_from 0 ("```" ++ nl ++ s ++ nl ++ "```"))
      with (strip_fences_from 0 (nl ++ s ++ nl ++ "```")).
    now rewrite Hinner, Htrim. }
  repeat split; try assumption.
  - unfold parseResponse. now rewrite Hjson, Hbare.
  - unfold parseResponse. now rewrite Hplain, Hbare.
Qed.

Lemma fenced_reply_cleans_to_the_bare_text_witness :
  clean (JString ("```json" ++ nl ++ "{}" ++ nl ++ "```")) = Return "{}"
  /\ parseResponse Sample.JSON_parse (JString ("```json" ++ nl ++ "{}" ++ nl ++ "```"))
     = parseResponse Sample.JSON_parse (JString "{}").
Proof.
  destruct (fenced_reply_cleans_to_the_bare_text Sample.JSON_parse "{}" eq_refl)
    as (_ & Hjson & _ & Hparse & _).
  split; [exact Hjson|exact Hparse].
Defined.



(* ================================================================== *)
(** * More on parsing a reply *)
(* ================================================================== *)

Lemma js_or_truthy (a b : JsValue) : truthy b = true -> truthy (js_or a b) = true.
Proof. intros Hb. unfold js_or. destruct (truthy a) eqn:E; assumption. Qed.

(** The advice is usable whatever the reply. *)
Lemma parseResponse_usable :
  forall (JSON_parse : string -> option JsValue),
    (forall (text : string) (v : JsValue),
        JSON_parse text = Some v -> is_json v = true) ->
    forall raw : JsValue,
      in_unit_interval (pa_confidence (parseResponse JSON_parse raw))
      /\ truthy (pa_riskFactors (parseResponse JSON_parse raw)) = true
      /\ truthy (pa_mitigatingFactors (parseResponse JSON_parse raw)) = true
      /\ (truthy (pa_reasoning (parseResponse JSON_parse raw)) = true
          \/ pa_reasoning (parseResponse JSON_parse raw) = JString "")
      /\ ((forall s : string, raw <> JString s) ->
          parseResponse JSON_parse raw = invalid_response).
Proof.
  intros JSON_parse Hsound raw.
  assert (Hinvalid :
            in_unit_interval (pa_confidence invalid_response)
            /\ truthy (pa_riskFactors invalid_response) = true
            /\ truthy (pa_mitigatingFactors invalid_response) = true
            /\ (truthy (pa_reasoning invalid_response) = true
                \/ pa_reasoning invalid_response = JString "")).
  { repeat split; [|now left].
    exists 0%Q. repeat split; [apply Qle_refl|discriminate]. }
  assert (Hnot : (forall s : string, raw <> JString s) ->
                 parseResponse JSON_parse raw = invalid_response).
  { intros Hraw. destruct raw; try reflexivity. now destruct (Hraw s). }
  destruct raw as [| | | |s| |];
    try (rewrite Hnot by discriminate;
         destruct Hinvalid as (H1 & H2 & H3 & H4);
         repeat split; assumption).
  unfold parseResponse, clean, decode. cbn [bindC try_catchC].
  destruct (JSON_parse (trim (strip_fences s))) as [parsed|] eqn:Hp;
    cbn [bindC try_catchC];
    [|destruct Hinvalid as (H1 & H2 & H3 & H4);
      split; [exact H1|]; split; [exact H2|]; split; [exact H3|];
      split; [exact H4|]; intros Hraw; now destruct (Hraw s)].
  pose proof (Hsound _ _ Hp) as Hj.
  destruct (advice_of_payload parsed) as [a|e] eqn:Ha; cbn [try_catchC];
    [|destruct Hinvalid as (H1 & H2 & H3 & H4);
      split; [exact H1|]; split; [exact H2|]; split; [exact H3|];
      split; [exact H4|]; intros Hraw; now destruct (Hraw s)].
  assert (Hnn : parsed <> JNull) by (intros ->; discriminate).
  rewrite (advice_of_payload_returns parsed Hj Hnn) in Ha.
  injection Ha as <-. cbn [pa_confidence pa_riskFactors pa_mitigatingFactors
                           pa_reasoning].
  split; [|split; [|split; [|split]]].
  - apply clamp_confidence_in_unit_interval.
    now apply payload_field_not_NaN.
  - now apply js_or_truthy.
  - now apply js_or_truthy.
  - unfold js_or. destruct (truthy (payload_field parsed "reasoning")) eqn:E;
      [left; exact E|now right].
  - intros Hraw. now destruct (Hraw s).
Qed.

(** X10. Whatever a provider replied, text or not, decodable or not, the
    advice [parseResponse] returns is usable as it stands: its confidence
    lies between 0 and 1, its risk and mitigating factors are never
    [null] or [undefined], and its reasoning is a truthy value or the
    empty string.  A reply that is not a string gives the advice of an
    invalid response.  The decoder is only assumed to return JSON
    values. *)
Theorem advice_is_always_usable :
  forall (JSON_parse : string -> option JsValue),
    (forall (text : string) (v : JsValue),
        JSON_parse text = Some v -> is_json v = true) ->
    forall raw : JsValue,
      in_unit_interval (pa_confidence (parseResponse JSON_parse raw))
      /\ truthy (pa_riskFactors (parseResponse JSON_parse raw)) = true
      /\ truthy (pa_mitigatingFactors (parseResponse JSON_parse raw)) = true
      /\ (truthy (pa_reasoning (parseResponse JSON_parse raw)) = true
          \/ pa_reasoning (parseResponse JSON_parse raw) = JString "")
      /\ ((forall s : string, raw <> JString s) ->
          parseResponse JSON_parse raw = invalid_response).
Proof.
  intros JSON_parse Hsound raw.
  destruct (parseResponse_usable JSON_parse Hsound raw)
    as (Hc & Hr & Hm & Ht & Hn).
  split; [exact Hc|]. split; [exact Hr|]. split; [exact Hm|].
  split; [exact Ht|exact Hn].
Qed.

Lemma advice_is_always_usable_witness :
  in_unit_interval
    (pa_confidence (parseResponse Sample.JSON_parse (JNumber (num_of_Z 5))))
  /\ parseResponse Sample.JSON_parse (JNumber (num_of_Z 5)) = invalid_response.
Proof.
  assert (Hsound : forall (text : string) (v : JsValue),
             Sample.JSON_parse text = Some v -> is_json v = true).
  { intros text v. unfold Sample.JSON_parse.
    destruct (text =? Sample.allow_text); [intros [= <-]; reflexivity|].
    destruct (text =? "null"); [intros [= <-]; reflexivity|].
    destruct (text =? "{}"); [intros [= <-]; reflexivity|discriminate]. }
  destruct (advice_is_always_usable Sample.JSON_parse Hsound
              (JNumber (num_of_Z 5))) as (Hc & _ & _ & _ & Hinv).
  split; [exact Hc|]. apply Hinv. discriminate.
Defined.

(** X11. The payload's [reasoning], [risk_factors] and
    [mitigating_factors] are not checked for their type: a truthy value
    is stored as it is, array or not, and a falsy one ([null], [false],
    [0], the empty string, or none) is replaced by the empty string for
    the reasoning and by the empty array for the factors. *)
Theorem payload_texts_are_stored_unchecked :
  forall (JSON_parse : string -> option JsValue) (raw : JsValue)
         (cleaned : string) (parsed : JsValue),
    clean raw = Return cleaned ->
    JSON_parse cleaned = Some parsed ->
    is_json parsed = true ->
    parsed <> JNull ->
    let advice := parseResponse JSON_parse raw in
    let field := payload_field parsed in
    (truthy (field "reasoning") = true ->
     pa_reasoning advice = field "reasoning")
    /\ (truthy (field "reasoning") = false -> pa_reasoning advice = JString "")
    /\ (truthy (field "risk_factors") = true ->
        pa_riskFactors advice = field "risk_factors")
    /\ (truthy (field "risk_factors") = false ->
        pa_riskFactors advice = JArray [])
    /\ (truthy (field "mitigating_factors") = true ->
        pa_mitigatingFactors advice = field "mitigating_factors")
    /\ (truthy (field "mitigating_factors") = false ->
        pa_mitigatingFactors advice = JArray []).
Proof.
  intros JSON_parse raw cleaned parsed Hclean Hparse Hjson Hnn advice field.
  assert (Hrun : advice = try_catchC (advice_of_payload parsed)
                            (fun _ => invalid_response)).
  { unfold advice, parseResponse, decode. rewrite Hclean. simpl.
    now rewrite Hparse. }
  rewrite (advice_of_payload_returns parsed Hjson Hnn) in Hrun.
  cbn [try_catchC] in Hrun. rewrite Hrun.
  cbn [pa_reasoning pa_riskFactors pa_mitigatingFactors]. fold field.
  unfold js_or.
  repeat split; intros H; now rewrite H.
Qed.

Lemma payload_texts_are_stored_unchecked_witness :
  pa_riskFactors (parseResponse Sample.JSON_parse (JString Sample.allow_text))
  = JArray []
  /\ pa_reasoning (parseResponse Sample.JSON_parse (JString Sample.allow_text))
     = JString "".
Proof.
  assert (Hnn : Sample.allow_payload <> JNull) by discriminate.
  destruct (payload_texts_are_stored_unchecked Sample.JSON_parse
              (JString Sample.allow_text) Sample.allow_text
              Sample.allow_payload eq_refl eq_refl eq_refl Hnn)
    as (_ & Hreason & _ & Hrisk & _).
  split; [exact (Hrisk eq_refl)|exact (Hreason eq_refl)].
Defined.

(* ================================================================== *)
(** * More on the provider call *)
(* ================================================================== *)

Lemma opt_chain_get_prop_returns (v : JsValue) (k : string) :
  exists r, opt_chain v (fun d => get_prop d k) = Return r.
Proof. destruct v; simpl; eexists; reflexivity. Qed.

Lemma opt_chain_get_index0_returns (v : JsValue) :
  exists r, opt_chain v get_index0 = Return r.
Proof.
  destruct v; simpl; try (eexists; reflexivity).
  destruct s; eexists; reflexivity.
Qed.

Section MoreProviderFacts.

Variable Number_toString : JsNum -> string.
Variable self : AIAnalyzer.
Variable prompt : string.

Local Abbreviation call := (callProvider Number_toString self).

Lemma mapC_text_parts (texts : list string) :
  mapC (fun p => get_prop p "text") (map text_part texts)
  = Return (map JString texts).
Proof.
  induction texts as [|s texts IH]; [reflexivity|].
  cbn [map mapC]. rewrite IH. reflexivity.
Qed.

Lemma join_strings (texts : list string) :
  map (fun x => if nullish x then "" else ToString Number_toString x)
      (map JString texts)
  = texts.
Proof.
  induction texts as [|s texts IH]; [reflexivity|].
  cbn [map]. rewrite IH. reflexivity.
Qed.

Lemma extractContent_gemini_parts (texts : list string) (others : list JsValue) :
  extractContent Number_toString "gemini"
    (gemini_data (map text_part texts) others)
  = Return (js_or (JString (String.concat "" texts)) JNull).
Proof.
  unfold extractContent, gemini_data.
  change ("gemini" =? "gemini") with true. cbv iota.
  change (opt_chain (JObject _) (fun d => get_prop d "candidates"))
    with (Return (JArray (JObject [("content",
            JObject [("parts", JArray (map text_part texts))])] :: others))).
  cbn [bindC].
  change (opt_chain (JArray _) get_index0)
    with (Return (JObject [("content",
            JObject [("parts", JArray (map text_part texts))])])).
  cbn [bindC].
  change (opt_chain (JObject [("content", _)]) (fun c => get_prop c "content"))
    with (Return (JObject [("parts", JArray (map text_part texts))])).
  cbn [bindC].
  change (opt_chain (JObject [("parts", _)]) (fun c => get_prop c "parts"))
    with (Return (JArray (map text_part texts))).
  cbn [bindC].
  change (opt_chain (JArray (map text_part texts)) array_map_text)
    with (array_map_text (JArray (map text_part texts))).
  unfold array_map_text. rewrite mapC_text_parts. cbn [bindC].
  change (opt_chain (JArray (map JString texts)) (array_join Number_toString ""))
    with (array_join Number_toString "" (JArray (map JString texts))).
  unfold array_join. rewrite join_strings. reflexivity.
Qed.

(** X12. The text parts of the first candidate of a gemini reply are
    concatenated in order and returned as the content, the other
    candidates are not read; when the concatenation is empty the call
    fails with GEMINI_EMPTY_RESPONSE. *)
Theorem gemini_parts_are_concatenated :
  forall (p : AIProvider) (w : World) (reply : NetReply)
         (rest : list NetReply) (texts : list string) (others : list JsValue),
    name p = "gemini" ->
    network w = reply :: rest ->
    response_data reply = Return (gemini_data (map text_part texts) others) ->
    fst (call p prompt w)
    = if String.concat "" texts =? ""
      then Throw (Error "GEMINI_EMPTY_RESPONSE")
      else Return (JString (String.concat "" texts)).
Proof.
  intros p w reply rest texts others Hname Hn Hr.
  unfold callProvider, build_request. rewrite Hname.
  change ("gemini" =? "gemini") with true. cbv iota.
  unfold bindM at 1. unfold liftC at 1.
  unfold bindM at 1. unfold axios_post. rewrite Hn, Hr.
  unfold bindM at 1. unfold liftC at 1.
  change (blockReason (gemini_data (map text_part texts) others))
    with (@Return JsValue JUndefined).
  cbn [truthy]. cbv iota.
  unfold bindM at 1. unfold liftC at 1.
  rewrite extractContent_gemini_parts.
  unfold js_or. cbn [truthy].
  destruct (String.concat "" texts =? "") eqn:E;
    cbn [negb]; cbv iota; cbn [truthy negb]; rewrite ?E; reflexivity.
Qed.


Lemma extractContent_claude_returns (data : JsValue) :
  exists content, extractContent Number_toString "claude" data = Return content.
Proof.
  unfold extractContent.
  change ("claude" =? "gemini") with false.
  change ("claude" =? "claude") with true. cbv iota.
  destruct (opt_chain_get_prop_returns data "content") as [c ->]. cbn [bindC].
  destruct (opt_chain_get_index0_returns c) as [f ->]. cbn [bindC].
  destruct (opt_chain_get_prop_returns f "text") as [t ->]. cbn [bindC].
  eexists. reflexivity.
Qed.

(** X13. The safety block is a matter of gemini alone.  A gemini reply
    with a truthy [promptFeedback.blockReason] fails with GEMINI_BLOCKED
    whatever content it carries.  For a claude provider the block reason
    is not read and reading the content never throws: a reply that
    resolved gives its content when that is truthy and fails with
    EMPTY_AI_RESPONSE otherwise. *)
Theorem safety_block_is_for_gemini_only :
  (forall (p : AIProvider) (w : World) (reply : NetReply)
          (rest : list NetReply) (data why : JsValue),
      name p = "gemini" ->
      network w = reply :: rest ->
      response_data reply = Return data ->
      blockReason data = Return why ->
      truthy why = true ->
      fst (call p prompt w)
      = Throw (Error ("GEMINI_BLOCKED:" ++ ToString Number_toString why)))
  /\ (forall (p : AIProvider) (w : World) (reply : NetReply)
             (rest : list NetReply) (data : JsValue),
         name p = "claude" ->
         network w = reply :: rest ->
         response_data reply = Return data ->
         exists content : JsValue,
           extractContent Number_toString "claude" data = Return content
           /\ fst (call p prompt w)
              = if truthy content then Return content
                else Throw (Error "EMPTY_AI_RESPONSE")).
Proof.
  split.
  - intros p w reply rest data why Hname Hn Hr Hb Ht.
    now apply (callProvider_blocked Number_toString self prompt p w reply rest
                 data why).
  - intros p w reply rest data Hname Hn Hr.
    destruct (extractContent_claude_returns data) as [content Hc].
    exists content. split; [exact Hc|].
    unfold callProvider, build_request. rewrite Hname.
    change ("claude" =? "gemini") with false.
    change ("claude" =? "claude") with true. cbv iota.
    unfold bindM at 1. unfold liftC at 1.
    unfold bindM at 1. unfold axios_post. rewrite Hn, Hr.
    unfold bindM at 1. unfold liftC at 1. cbn [truthy]. cbv iota.
    unfold bindM at 1. unfold liftC at 1. rewrite Hc.
    destruct (truthy content); reflexivity.
Qed.


Lemma call_returns_known (p : AIProvider) (w w' : World) (raw : JsValue) :
  call p prompt w = (Return raw, w') ->
  name p = "gemini" \/ name p = "claude".
Proof.
  intros H.
  destruct (name p =? "gemini") eqn:Eg; [left; now apply String.eqb_eq|].
  destruct (name p =? "claude") eqn:Ec; [right; now apply String.eqb_eq|].
  apply String.eqb_neq in Eg. apply String.eqb_neq in Ec.
  rewrite (callProvider_unknown Number_toString self prompt p w (conj Eg Ec)) in H.
  discriminate.
Qed.

Lemma requests_for_one (p : AIProvider) :
  (length (requests_for self prompt [p]) <= 1)%nat.
Proof.
  unfold requests_for. simpl.
  destruct (build_request self p prompt); simpl; lia.
Qed.

End MoreProviderFacts.

Lemma gemini_parts_are_concatenated_witness :
  fst (callProvider Sample.Number_toString Sample.analyzer Sample.gemini
         Sample.prompt
         {| clock := 0;
            network :=
              [ {| latency := 10;
                   response_data :=
                     Return (gemini_data
                               (map text_part ["{"; "}"]) [JNull]) |} ];
            trace := [] |})
  = Return (JString "{}").
Proof.
  apply (gemini_parts_are_concatenated Sample.Number_toString Sample.analyzer
           Sample.prompt Sample.gemini
           {| clock := 0;
              network :=
                [ {| latency := 10;
                     response_data :=
                       Return (gemini_data
                                 (map text_part ["{"; "}"]) [JNull]) |} ];
              trace := [] |}
           {| latency := 10;
              response_data :=
                Return (gemini_data (map text_part ["{"; "}"]) [JNull]) |}
           [] ["{"; "}"] [JNull]); reflexivity.
Defined.

Lemma safety_block_is_for_gemini_only_witness :
  fst (callProvider Sample.Number_toString Sample.analyzer Sample.gemini
         Sample.prompt Sample.world_fallback)
  = Throw (Error "GEMINI_BLOCKED:SAFETY")
  /\ exists content : JsValue,
       fst (callProvider Sample.Number_toString Sample.analyzer Sample.claude
              Sample.prompt Sample.world_fallback)
       = if truthy content then Return content
         else Throw (Error "EMPTY_AI_RESPONSE").
Proof.
  destruct (safety_block_is_for_gemini_only Sample.Number_toString
              Sample.analyzer Sample.prompt) as (Hgemini & Hclaude).
  split.
  - exact (Hgemini Sample.gemini Sample.world_fallback _ _
             Sample.gemini_blocked (JString "SAFETY")
             eq_refl eq_refl eq_refl eq_refl eq_refl).
  - destruct (Hclaude Sample.claude Sample.world_fallback _ _
                Sample.gemini_blocked eq_refl eq_refl eq_refl)
      as (content & _ & Hcall).
    exists content. exact Hcall.
Defined.

(* ================================================================== *)
(** * More on the analysis *)
(* ================================================================== *)

Section MoreAnalysisFacts.

Variable JSON_parse : string -> option JsValue.
Variable JSON_stringify : JsValue -> string.
Variable Number_toString : JsNum -> string.
Variable self : AIAnalyzer.

Local Abbreviation run := (analyze JSON_parse JSON_stringify Number_toString self).
Local Abbreviation call := (callProvider Number_toString self).
Local Abbreviation loop := (analyze_loop JSON_parse Number_toString self).

(** What a run of the loop adds to the trace. *)
Lemma loop_trace (start : Z) (prompt : string) (ps : list AIProvider) :
  forall (w w' : World) (i : AIInsight),
    loop start prompt ps w = (Return i, w') ->
    exists t : list Event,
      trace w' = trace w ++ t
      /\ (length (posts t) <= length ps)%nat
      /\ (length (warned t) <= length ps)%nat
      /\ (length (posts t) <= S (length (warned t)))%nat
      /\ (analyzed i = false -> length (warned t) = length ps).
Proof.
  induction ps as [|p ps IH]; intros w w' i H.
  - simpl in H. run_effects. inversion H; subst; clear H.
    exists []. rewrite app_nil_r. simpl. repeat split; lia.
  - simpl in H. unfold bindM at 1 in H.
    destruct (call p prompt w) as [[raw|e] w1] eqn:Hcall.
    + rewrite (attempt_returns JSON_parse Number_toString self start prompt
                 p w w1 raw Hcall) in H.
      run_effects. inversion H; subst; clear H.
      pose proof (callProvider_trace _ _ _ _ _ _ _ Hcall) as Ht.
      pose proof (requests_for_one self prompt p) as Hone.
      exists (map Posted (requests_for self prompt [p])).
      rewrite posts_Posted, warned_Posted. cbn [length].
      split; [exact Ht|]. split; [lia|]. split; [lia|]. split; [lia|].
      discriminate.
    + rewrite (attempt_recovers JSON_parse Number_toString self start prompt
                 p w w1 e Hcall) in H.
      destruct (IH _ _ _ H) as (t & Ht & Hp & Hw & Hpw & Hall).
      pose proof (callProvider_trace _ _ _ _ _ _ _ Hcall) as Hc.
      pose proof (requests_for_one self prompt p) as Hone.
      exists (map Posted (requests_for self prompt [p])
              ++ Warned (name p) (model p) e :: t).
      split.
      * rewrite Ht. unfold emit; cbn [trace]. rewrite Hc, <- !app_assoc.
        reflexivity.
      * rewrite posts_app, warned_app, posts_Posted, warned_Posted.
        cbn [posts warned length app]. rewrite length_app.
        cbn [length]. repeat split; try lia.
        intros Ha. rewrite (Hall Ha). reflexivity.
Qed.

(** What the loop returns: the insight of all providers failing, or the
    insight built from the reply of one of the providers. *)
Lemma loop_shape (start : Z) (prompt : string) (ps : list AIProvider) :
  forall (w w' : World) (i : AIInsight),
    loop start prompt ps w = (Return i, w') ->
    i = unanalyzed (Some "ALL_PROVIDERS_FAILED") (Some (clock w' - start)%Z)
    \/ exists (p : AIProvider) (raw : JsValue) (w0 : World),
         In p ps
         /\ call p prompt w0 = (Return raw, w')
         /\ i = insight_of self p (clock w' - start)%Z
                  (parseResponse JSON_parse raw).
Proof.
  induction ps as [|p ps IH]; intros w w' i H.
  - simpl in H. run_effects. inversion H; subst; clear H. now left.
  - simpl in H. unfold bindM at 1 in H.
    destruct (call p prompt w) as [[raw|e] w1] eqn:Hcall.
    + rewrite (attempt_returns JSON_parse Number_toString self start prompt
                 p w w1 raw Hcall) in H.
      run_effects. inversion H; subst; clear H.
      right. exists p, raw, w. repeat split; [now left|exact Hcall].
    + rewrite (attempt_recovers JSON_parse Number_toString self start prompt
                 p w w1 e Hcall) in H.
      destruct (IH _ _ _ H) as [Hfail|(q & raw & w0 & Hin & Hq & Hi)];
        [now left|].
      right. exists q, raw, w0. repeat split; [now right|exact Hq|exact Hi].
Qed.

(** X14. One call of [analyze] tries each configured provider at most
    once: it adds to the trace at most as many requests and at most as
    many warnings as there are providers, at most one request more than
    warnings, and nothing at all when the analyzer is disabled; when an
    enabled analyzer returns an unanalyzed insight, every provider was
    tried and logged as failed. *)
Theorem each_provider_is_tried_at_most_once :
  forall (input : JsValue) (ctx : RuleContext) (w w' : World) (i : AIInsight),
    run input ctx w = (Return i, w') ->
    exists t : list Event,
      trace w' = trace w ++ t
      /\ (length (posts t) <= length (providers self))%nat
      /\ (length (warned t) <= length (providers self))%nat
      /\ (length (posts t) <= S (length (warned t)))%nat
      /\ (enabled self = false -> t = [])
      /\ (enabled self = true -> analyzed i = false ->
          length (warned t) = length (providers self)).
Proof.
  intros input ctx w w' i H.
  destruct (enabled self) eqn:He.
  - rewrite (analyze_enabled _ _ _ _ input ctx w He) in H.
    destruct (loop_trace _ _ _ _ _ _ H) as (t & Ht & Hp & Hw & Hpw & Hall).
    exists t. split; [exact Ht|]. split; [exact Hp|]. split; [exact Hw|].
    split; [exact Hpw|]. split; [discriminate|]. intros _. exact Hall.
  - rewrite (analyze_disabled _ _ _ _ input ctx w He) in H.
    inversion H; subst; clear H. exists []. rewrite app_nil_r. cbn [posts warned length].
    split; [reflexivity|]. split; [lia|]. split; [lia|]. split; [lia|].
    split; [reflexivity|discriminate].
Qed.

(** X15. What an insight returned by [analyze] holds, given a decoder
    that returns JSON values.  An analyzed insight names one of the
    configured providers, whose name is "gemini" or "claude", with its
    model, has a recommendation, a confidence between 0 and 1 and no
    failure reason.  An unanalyzed insight has neither provider nor
    recommendation nor confidence, and its threshold flag is false. *)
Theorem insight_is_well_formed :
  (forall (text : string) (v : JsValue),
      JSON_parse text = Some v -> is_json v = true) ->
  forall (input : JsValue) (ctx : RuleContext) (w w' : World) (i : AIInsight),
    run input ctx w = (Return i, w') ->
    (analyzed i = true ->
     (exists p : AIProvider,
         In p (providers self)
         /\ (name p = "gemini" \/ name p = "claude")
         /\ provider i = Some (name p)
         /\ insight_model i = Some (model p))
     /\ (exists r : Recommendation, recommendation i = Some r)
     /\ (exists c : JsNum, confidence i = Some c /\ in_unit_interval c)
     /\ reason i = None)
    /\ (analyzed i = false ->
        provider i = None /\ recommendation i = None /\ confidence i = None
        /\ meetsConfidenceThreshold i = false).
Proof.
  intros Hsound input ctx w w' i H.
  destruct (enabled self) eqn:He.
  - rewrite (analyze_enabled _ _ _ _ input ctx w He) in H.
    destruct (loop_shape _ _ _ _ _ _ H) as [->|(p & raw & w0 & Hin & Hcall & ->)].
    + split; [discriminate|]. intros _. repeat split.
    + split; [|discriminate]. intros _.
      split; [|split; [|split]].
      * exists p. repeat split; [exact Hin|].
        exact (call_returns_known Number_toString self _ p w0 w' raw Hcall).
      * eexists. reflexivity.
      * eexists. split; [reflexivity|].
        now apply (parseResponse_usable JSON_parse Hsound raw).
      * reflexivity.
  - rewrite (analyze_disabled _ _ _ _ input ctx w He) in H.
    inversion H; subst; clear H. split; [discriminate|]. intros _.
    repeat split.
Qed.

(** X16. For an insight that [analyze] returned, combined by the same
    analyzer, the threshold flag and the threshold test agree: under
    SAFE_ALLOW the result is REVIEW exactly when the insight recommends
    DENY and carries a true flag; and under every outcome the final
    decision is defined. *)
Theorem returned_insight_combines_consistently :
  forall (input : JsValue) (ctx : RuleContext) (w w' : World) (i : AIInsight),
    run input ctx w = (Return i, w') ->
    (combineDecision self SAFE_ALLOW (Some i) = decision REVIEW AI_FLAGGED_REVIEW
     <-> recommendation i = Some DENY /\ meetsConfidenceThreshold i = true)
    /\ (forall o : RuleOutcome,
           exists d : Recommendation,
             finalDecision (combineDecision self o (Some i)) = Some d).
Proof.
  intros input ctx w w' i H.
  assert (Hshape : i = unanalyzed None None
                   \/ (exists elapsed, i = unanalyzed (Some "ALL_PROVIDERS_FAILED")
                                              (Some elapsed))
                   \/ exists p elapsed advice, i = insight_of self p elapsed advice).
  { destruct (enabled self) eqn:He.
    - rewrite (analyze_enabled _ _ _ _ input ctx w He) in H.
      destruct (loop_shape _ _ _ _ _ _ H) as [->|(p & raw & w0 & _ & _ & ->)].
      + right; left. eexists. reflexivity.
      + right; right. do 3 eexists. reflexivity.
    - rewrite (analyze_disabled _ _ _ _ input ctx w He) in H.
      inversion H; subst; clear H. now left. }
  destruct Hshape as [->|[[elapsed ->]|(p & elapsed & advice & ->)]].
  - split.
    + split; [discriminate|]. intros [Hr _]. discriminate.
    + intros [| |]; eexists; reflexivity.
  - split.
    + split; [discriminate|]. intros [Hr _]. discriminate.
    + intros [| |]; eexists; reflexivity.
  - split.
    + cbn [combineDecision insight_of analyzed recommendation confidence
             meetsConfidenceThreshold confidence_ge andb].
      destruct (pa_recommendation advice); cbn [is_DENY andb].
      * split; [discriminate|]. intros [Hr _]. discriminate.
      * destruct (js_ge (pa_confidence advice) (confidenceThreshold self)).
        -- split; [now split|reflexivity].
        -- split; [discriminate|]. intros [_ Hm]. discriminate.
      * split; [discriminate|]. intros [Hr _]. discriminate.
    + intros [| |];
        cbn [combineDecision insight_of analyzed recommendation confidence
               meetsConfidenceThreshold confidence_ge andb negb].
      * destruct (is_DENY (Some (pa_recommendation advice))
                  && js_ge (pa_confidence advice) (confidenceThreshold self));
          eexists; reflexivity.
      * eexists; reflexivity.
      * destruct (js_ge (pa_confidence advice) (confidenceThreshold self));
          eexists; reflexivity.
Qed.

(** X17. A reply that does not decode, met under a GREY_ZONE outcome,
    always ends in REVIEW, whatever the threshold: with a positive
    threshold its confidence 0 does not meet it and the source is
    AI_UNCERTAIN; with a threshold of 0 or below the recommendation
    REVIEW is followed and the source is AI_RECOMMENDED. *)
Theorem undecodable_reply_ends_in_review :
  forall (p : AIProvider) (elapsed : Z) (raw : JsValue) (cleaned : string),
    clean raw = Return cleaned ->
    JSON_parse cleaned = None ->
    let i := insight_of self p elapsed (parseResponse JSON_parse raw) in
    finalDecision (combineDecision self GREY_ZONE (Some i)) = Some REVIEW
    /\ (js_lt (num_of_Z 0) (confidenceThreshold self) = true ->
        combineDecision self GREY_ZONE (Some i) = decision REVIEW AI_UNCERTAIN)
    /\ (js_ge (num_of_Z 0) (confidenceThreshold self) = true ->
        source (combineDecision self GREY_ZONE (Some i)) = AI_RECOMMENDED).
Proof.
  intros p elapsed raw cleaned Hc Hp i. unfold i.
  rewrite (parseResponse_undecodable JSON_parse raw cleaned Hc Hp).
  cbn [combineDecision insight_of analyzed meetsConfidenceThreshold negb
         recommendation confidence invalid_response pa_confidence
         pa_recommendation].
  split; [|split].
  - destruct (js_ge (num_of_Z 0) (confidenceThreshold self)); reflexivity.
  - intros Hlt. now rewrite (js_lt_not_ge _ _ Hlt).
  - intros Hge. now rewrite Hge.
Qed.

End MoreAnalysisFacts.

Lemma each_provider_is_tried_at_most_once_witness :
  exists t : list Event,
    trace (snd (analyze Sample.JSON_parse Sample.JSON_stringify
                  Sample.Number_toString Sample.analyzer Sample.input
                  Sample.context Sample.world_fallback))
    = trace Sample.world_fallback ++ t
    /\ (length (posts t) <= 3)%nat.
Proof.
  destruct (each_provider_is_tried_at_most_once Sample.JSON_parse
              Sample.JSON_stringify Sample.Number_toString Sample.analyzer
              Sample.input Sample.context Sample.world_fallback
              (snd (analyze Sample.JSON_parse Sample.JSON_stringify
                      Sample.Number_toString Sample.analyzer Sample.input
                      Sample.context Sample.world_fallback))
              Sample.confident eq_refl)
    as (t & Ht & Hp & _).
  exists t. split; [exact Ht|exact Hp].
Defined.

Lemma Sample_JSON_parse_sound (text : string) (v : JsValue) :
  Sample.JSON_parse text = Some v -> is_json v = true.
Proof.
  unfold Sample.JSON_parse.
  destruct (text =? Sample.allow_text); [intros [= <-]; reflexivity|].
  destruct (text =? "null"); [intros [= <-]; reflexivity|].
  destruct (text =? "{}"); [intros [= <-]; reflexivity|discriminate].
Defined.

Lemma insight_is_well_formed_witness :
  exists c : JsNum,
    confidence Sample.confident = Some c /\ in_unit_interval c.
Proof.
  destruct (insight_is_well_formed Sample.JSON_parse Sample.JSON_stringify
              Sample.Number_toString Sample.analyzer Sample_JSON_parse_sound
              Sample.input Sample.context Sample.world_fallback
              (snd (analyze Sample.JSON_parse Sample.JSON_stringify
                      Sample.Number_toString Sample.analyzer Sample.input
                      Sample.context Sample.world_fallback))
              Sample.confident eq_refl)
    as (Hyes & _).
  destruct (Hyes eq_refl) as (_ & _ & Hc & _). exact Hc.
Defined.

Lemma returned_insight_combines_consistently_witness :
  exists d : Recommendation,
    finalDecision (combineDecision Sample.analyzer GREY_ZONE
                     (Some Sample.confident)) = Some d.
Proof.
  destruct (returned_insight_combines_consistently Sample.JSON_parse
              Sample.JSON_stringify Sample.Number_toString Sample.analyzer
              Sample.input Sample.context Sample.world_fallback
              (snd (analyze Sample.JSON_parse Sample.JSON_stringify
                      Sample.Number_toString Sample.analyzer Sample.input
                      Sample.context Sample.world_fallback))
              Sample.confident eq_refl)
    as (_ & Hdef).
  exact (Hdef GREY_ZONE).
Defined.

Lemma undecodable_reply_ends_in_review_witness :
  combineDecision Sample.analyzer GREY_ZONE
    (Some (insight_of Sample.analyzer Sample.gemini 25
             (parseResponse Sample.JSON_parse (JString "not json"))))
  = decision REVIEW AI_UNCERTAIN.
Proof.
  destruct (undecodable_reply_ends_in_review Sample.JSON_parse Sample.analyzer
              Sample.gemini 25 (JString "not json") "not json"
              eq_refl eq_refl) as (_ & Hpos & _).
  exact (Hpos eq_refl).
Defined.



(* ================================================================== *)
(** * More on the decision endpoint *)
(* ================================================================== *)

Section MoreRouteFacts.

Variable decide : JsValue -> JsValue -> M JsValue.
Variable ENGINE_VERSION : JsValue.
Variable toISOString : Z -> string.

Local Abbreviation handler := (post_decide decide ENGINE_VERSION toISOString).

Lemma handler_sends_result (req : Request) (w w1 : World)
    (result verdict : JsValue) :
  decide (body req) (requestId req) w = (Return result, w1) ->
  (decision <- get_prop result "decision" ;;
   get_prop decision "final")%comp = Return verdict ->
  handler req w
  = (Return tt,
     emit (Responded (if is_ERROR verdict then 500 else 200)%Z result) w1).
Proof.
  intros Hd Hv.
  unfold post_decide, try_catch. unfold bindM at 1. rewrite Hd.
  unfold bindM at 1. unfold liftC. rewrite Hv.
  run_effects. reflexivity.
Qed.

Lemma handler_catches (req : Request) (w w1 : World) (e : JsError) :
  (decide (body req) (requestId req) w = (Throw e, w1)
   \/ exists result : JsValue,
        decide (body req) (requestId req) w = (Return result, w1)
        /\ (decision <- get_prop result "decision" ;;
            get_prop decision "final")%comp = Throw e) ->
  handler req w
  = (Return tt,
     {| clock := clock w1; network := network w1;
        trace := trace w1
                 ++ [ LoggedError (requestId req) e;
                      Counted "unhandled_error" "/decide";
                      Responded 500
                        (error_body ENGINE_VERSION (requestId req)
                           (toISOString (clock w1))) ] |}).
Proof.
  intros [Hd|(result & Hd & Hv)].
  - unfold post_decide, try_catch. unfold bindM at 1. rewrite Hd.
    run_effects. unfold emit. simpl. rewrite <- !app_assoc. reflexivity.
  - unfold post_decide, try_catch. unfold bindM at 1. rewrite Hd.
    unfold bindM at 1. unfold liftC. rewrite Hv.
    run_effects. unfold emit. simpl. rewrite <- !app_assoc. reflexivity.
Qed.

(** X19. When the decision service returns a result whose
    [decision.final] can be read, the handler sends that result as it
    is, with status 500 when the verdict is the string "ERROR" and 200
    otherwise, and does nothing else: nothing is logged and no error is
    counted. *)
Theorem result_is_sent_as_it_is :
  forall (req : Request) (w w1 : World) (result verdict : JsValue),
    decide (body req) (requestId req) w = (Return result, w1) ->
    (decision <- get_prop result "decision" ;;
     get_prop decision "final")%comp = Return verdict ->
    handler req w
    = (Return tt,
       emit (Responded (if is_ERROR verdict then 500 else 200)%Z result) w1).
Proof.
  intros req w w1 result verdict Hd Hv.
  now apply handler_sends_result.
Qed.

(** X20. When the decision service throws, or returns a result whose
    [decision.final] cannot be read, the handler does three things in
    this order and nothing else: it logs the error with the request id,
    counts one "unhandled_error" for "/decide", and responds with status
    500 and the error body stamped with the current time. *)
Theorem failure_is_logged_counted_and_answered :
  (forall (req : Request) (w w1 : World) (e : JsError),
      decide (body req) (requestId req) w = (Throw e, w1) ->
      exists w' : World,
        handler req w = (Return tt, w')
        /\ clock w' = clock w1 /\ network w' = network w1
        /\ trace w'
           = trace w1
             ++ [ LoggedError (requestId req) e;
                  Counted "unhandled_error" "/decide";
                  Responded 500
                    (error_body ENGINE_VERSION (requestId req)
                       (toISOString (clock w1))) ])
  /\ (forall (req : Request) (w w1 : World) (result : JsValue) (e : JsError),
         decide (body req) (requestId req) w = (Return result, w1) ->
         (decision <- get_prop result "decision" ;;
          get_prop decision "final")%comp = Throw e ->
         exists w' : World,
           handler req w = (Return tt, w')
           /\ clock w' = clock w1 /\ network w' = network w1
           /\ trace w'
              = trace w1
                ++ [ LoggedError (requestId req) e;
                     Counted "unhandled_error" "/decide";
                     Responded 500
                       (error_body ENGINE_VERSION (requestId req)
                          (toISOString (clock w1))) ]).
Proof.
  split.
  - intros req w w1 e Hd.
    eexists. split; [apply (handler_catches req w w1 e); now left|].
    repeat split.
  - intros req w w1 result e Hd Hv.
    eexists.
    split; [apply (handler_catches req w w1 e); right; now exists result|].
    repeat split.
Qed.

End MoreRouteFacts.

Lemma result_is_sent_as_it_is_witness :
  post_decide (fun _ _ => ret (JObject [("decision",
                 JObject [("final", JString "ERROR")])]))
    Sample.ENGINE_VERSION Sample.toISOString Sample.request Sample.world_down
  = (Return tt,
     emit (Responded 500 (JObject [("decision",
             JObject [("final", JString "ERROR")])])) Sample.world_down).
Proof.
  apply (result_is_sent_as_it_is
           (fun _ _ => ret (JObject [("decision",
                              JObject [("final", JString "ERROR")])]))
           Sample.ENGINE_VERSION Sample.toISOString Sample.request
           Sample.world_down Sample.world_down _ (JString "ERROR"));
    reflexivity.
Defined.

Lemma failure_is_logged_counted_and_answered_witness :
  exists w' : World,
    post_decide Sample.decide_fails Sample.ENGINE_VERSION Sample.toISOString
      Sample.request Sample.world_down
    = (Return tt, w')
    /\ length (trace w') = 3%nat.
Proof.
  destruct (failure_is_logged_counted_and_answered Sample.decide_fails
              Sample.ENGINE_VERSION Sample.toISOString) as (Hthrow & _).
  destruct (Hthrow Sample.request Sample.world_down Sample.world_down
              (Error "rule engine crashed") eq_refl)
    as (w' & Hrun & _ & _ & Ht).
  exists w'. split; [exact Hrun|]. rewrite Ht. reflexivity.
Defined.

(* ================================================================== *)
(** * Metrics *)
(* ================================================================== *)

Section MetricsFacts.

Variable Number_toString : JsNum -> string.





Lemma forEach_well_labelled (items : list JsValue) :
  Forall well_labelled (fst (forEach_rule_evaluation Number_toString items)).
Proof.
  induction items as [|x items IH]; cbn [forEach_rule_evaluation fst];
    [constructor|].
  destruct (record_rule_evaluation Number_toString x) as [u|e] eqn:E;
    [|constructor].
  destruct (forEach_rule_evaluation Number_toString items) as [us c].
  cbn [fst] in *. constructor; [|exact IH].
  unfold record_rule_evaluation in E.
  destruct (get_prop x "ruleId"); [|discriminate].
  destruct (get_prop x "matched"); [|discriminate].
  cbn [bindC] in E. injection E as <-. reflexivity.
Qed.

(** X21. Every update the helpers of the metrics module make names
    exactly the labels with which its metric was declared, in
    [recordDecision], [recordAIInvocation], [recordError] and
    [updateEngineInfo] alike, whatever the arguments. *)
Theorem metric_labels_are_declared :
  (forall params : DecisionParams,
      Forall well_labelled (fst (recordDecision Number_toString params)))
  /\ (forall params : InvocationParams,
         Forall well_labelled (recordAIInvocation Number_toString params))
  /\ (forall type endpoint : JsValue,
         Forall well_labelled (recordError_update type endpoint))
  /\ (forall version rulesCount aiEnabled : JsValue,
         Forall well_labelled
           (updateEngineInfo Number_toString version rulesCount aiEnabled)).
Proof.
  split; [|split; [|split]].
  - intros params. unfold recordDecision.
    destruct (truthy (dp_evaluationPath params)).
    + destruct (dp_evaluationPath params);
        try (cbn [fst]; repeat constructor).
      pose proof (forEach_well_labelled items) as Hitems.
      destruct (forEach_rule_evaluation Number_toString items) as [us c].
      cbn [fst] in *. repeat constructor. exact Hitems.
    + cbn [fst]. repeat constructor.
  - intros params. unfold recordAIInvocation.
    destruct (truthy (ip_durationMs params)); repeat constructor.
  - intros type endpoint. repeat constructor.
  - intros version rulesCount aiEnabled. repeat constructor.
Qed.


(** X23. [recordAIInvocation] always counts the invocation; it observes
    the latency, under the same provider and success labels, only when
    the duration is truthy, so that a duration of 0 milliseconds, like an
    absent one, is counted but not observed. *)
Theorem zero_latency_is_not_observed :
  forall params : InvocationParams,
    let counted :=
      Inc aiInvocationCounter
        [("success", String_of Number_toString (ip_success params));
         ("provider", ip_provider params)] in
    (truthy (ip_durationMs params) = false ->
     recordAIInvocation Number_toString params = [counted])
    /\ (truthy (ip_durationMs params) = true ->
        recordAIInvocation Number_toString params
        = [ counted;
            Observe aiLatency
              [("provider", ip_provider params);
               ("success", String_of Number_toString (ip_success params))]
              (ip_durationMs params) ])
    /\ (forall zero : Q,
           (zero == 0)%Q ->
           ip_durationMs params = JNumber (Fin zero) ->
           recordAIInvocation Number_toString params = [counted]).
Proof.
  intros params counted. unfold recordAIInvocation. fold counted.
  split; [|split].
  - intros H. now rewrite H.
  - intros H. now rewrite H.
  - intros zero Hz Hd. rewrite Hd. cbn [truthy num_truthy].
    apply Qeq_bool_iff in Hz. now rewrite Hz.
Qed.

End MetricsFacts.


Lemma zero_latency_is_not_observed_witness :
  length
    (recordAIInvocation Sample.Number_toString
       {| ip_success := JBool true; ip_provider := JString "claude";
          ip_durationMs := JNumber (num_of_Z 0) |})
  = 1%nat.
Proof.
  destruct (zero_latency_is_not_observed Sample.Number_toString
              {| ip_success := JBool true; ip_provider := JString "claude";
                 ip_durationMs := JNumber (num_of_Z 0) |})
    as (_ & _ & Hzero).
  rewrite (Hzero (inject_Z 0)); reflexivity.
Defined.

(* ================================================================== *)
(** * Dashboard *)
(* ================================================================== *)

Section DashboardFacts.

Variable Number_toString : JsNum -> string.
Variable runtime_message : JsError -> string.
Variable parseFloat : string -> JsNum.

Local Abbreviation submit := (page_handleSubmit Number_toString runtime_message).

(** X24. When [handleSubmit] of the page is over, the page is no longer
    loading and does not show a result and an error together; what it
    shows depends on the answer alone, not on what was shown before. *)
Theorem page_shows_a_result_or_an_error :
  forall (fetched : FetchOutcome) (s s' : PageState),
    page_isLoading (submit fetched s) = false
    /\ (page_result (submit fetched s) = JNull
        \/ page_error (submit fetched s) = None)
    /\ submit fetched s = submit fetched s'.
Proof.
  intros fetched s s'. unfold page_handleSubmit.
  destruct (fetch_decision Number_toString fetched) as [resultData|err];
    repeat split; try (now left); now right.
Qed.

(** X25. What the page shows for each answer.  A status outside 200 to
    299 gives the message "Request failed with status" and the status,
    and the body is not read; a failed request gives the message of its
    error; a body that does not decode gives the message of the decoding
    error; and only a status from 200 to 299 with a decoded body gives a
    result, which is that body. *)
Theorem page_reports_every_failure :
  forall s : PageState,
    (forall (status : Z) (payload : Completion JsValue),
        response_ok status = false ->
        submit (FetchResponded status payload) s
        = {| page_result := JNull;
             page_error := Some ("Request failed with status "
                                 ++ Number_toString (num_of_Z status))%string;
             page_isLoading := false |})
    /\ (forall e : JsError,
           submit (FetchFailed e) s
           = {| page_result := JNull;
                page_error := Some (error_message runtime_message e);
                page_isLoading := false |})
    /\ (forall (status : Z) (e : JsError),
           response_ok status = true ->
           submit (FetchResponded status (Throw e)) s
           = {| page_result := JNull;
                page_error := Some (error_message runtime_message e);
                page_isLoading := false |})
    /\ (forall (status : Z) (resultData : JsValue),
           response_ok status = true ->
           submit (FetchResponded status (Return resultData)) s
           = {| page_result := resultData;
                page_error := None;
                page_isLoading := false |}).
Proof.
  intros s. unfold page_handleSubmit, fetch_decision.
  split; [|split; [|split]].
  - intros status payload H. now rewrite H.
  - reflexivity.
  - intros status e H. now rewrite H.
  - intros status resultData H. now rewrite H.
Qed.

(** X26. A failure of the pipeline reaches the user as a bare status:
    when the decision service throws, or returns a verdict "ERROR", the
    endpoint answers with status 500, and the page, given that answer,
    shows "Request failed with status" 500 and no result; the decision
    object, the error message and the request id of the body are not
    shown. *)
Theorem pipeline_failure_shows_as_a_status :
  forall (decide : JsValue -> JsValue -> M JsValue)
         (ENGINE_VERSION : JsValue) (toISOString : Z -> string)
         (req : Request) (w w1 : World) (s : PageState),
    (exists e : JsError, decide (body req) (requestId req) w = (Throw e, w1))
    \/ (exists result : JsValue,
           decide (body req) (requestId req) w = (Return result, w1)
           /\ (decision <- get_prop result "decision" ;;
               get_prop decision "final")%comp = Return (JString "ERROR")) ->
    exists (w' : World) (payload : JsValue),
      post_decide decide ENGINE_VERSION toISOString req w = (Return tt, w')
      /\ responses (trace w') = responses (trace w1) ++ [(500%Z, payload)]
      /\ submit (FetchResponded 500 (Return payload)) s
         = {| page_result := JNull;
              page_error := Some ("Request failed with status "
                                  ++ Number_toString (num_of_Z 500))%string;
              page_isLoading := false |}.
Proof.
  intros decide ENGINE_VERSION toISOString req w w1 s [[e Hd]|(result & Hd & Hv)].
  - eexists; eexists. split; [|split].
    + apply (handler_catches decide ENGINE_VERSION toISOString req w w1 e).
      now left.
    + cbn [trace]. rewrite responses_app. reflexivity.
    + reflexivity.
  - exists (emit (Responded 500 result) w1), result. split; [|split].
    + now rewrite (handler_sends_result decide ENGINE_VERSION toISOString
                     req w w1 result (JString "ERROR") Hd Hv).
    + simpl. rewrite responses_app. reflexivity.
    + reflexivity.
Qed.



End DashboardFacts.


Lemma pipeline_failure_shows_as_a_status_witness :
  exists (w' : World) (payload : JsValue),
    post_decide Sample.decide_fails Sample.ENGINE_VERSION Sample.toISOString
      Sample.request Sample.world_down
    = (Return tt, w')
    /\ page_error
         (page_handleSubmit Sample.Number_toString (fun _ => "")
            (FetchResponded 500 (Return payload))
            {| page_result := JNull; page_error := None;
               page_isLoading := false |})
       = Some "Request failed with status <number>".
Proof.
  destruct (pipeline_failure_shows_as_a_status Sample.Number_toString
              (fun _ => "") Sample.decide_fails Sample.ENGINE_VERSION
              Sample.toISOString Sample.request Sample.world_down
              Sample.world_down
              {| page_result := JNull; page_error := None;
                 page_isLoading := false |})
    as (w' & payload & Hrun & _ & Hpage).
  - left. exists (Error "rule engine crashed"). reflexivity.
  - exists w', payload. split; [exact Hrun|]. rewrite Hpage. reflexivity.
Defined.

Lemma page_reports_every_failure_witness :
  page_handleSubmit Sample.Number_toString (fun _ => "")
    (FetchResponded 404 (Throw SyntaxError))
    {| page_result := JString "old"; page_error := Some "old";
       page_isLoading := false |}
  = {| page_result := JNull;
       page_error := Some "Request failed with status <number>";
       page_isLoading := false |}.
Proof.
  destruct (page_reports_every_failure Sample.Number_toString (fun _ => "")
              {| page_result := JString "old"; page_error := Some "old";
                 page_isLoading := false |}) as (Hstatus & _).
  exact (Hstatus 404%Z (Throw SyntaxError) eq_refl).
Defined.

(* ================================================================== *)
(** * Source labels of the dashboard *)
(* ================================================================== *)

(** X28. Of the six sources [combineDecision] gives, the dashboard has a
    label for three: RULE, AI_RECOMMENDED and AI_FLAGGED_REVIEW.  A
    decision by a SAFE_DENY rule (RULE_ABSOLUTE) and a grey-zone REVIEW
    without a followed recommendation (AI_UNAVAILABLE, AI_UNCERTAIN) are
    shown without a source label. *)
Theorem half_of_the_sources_have_a_label :
  forall (self : AIAnalyzer) (o : RuleOutcome) (i : option AIInsight),
    let d := combineDecision self o i in
    (sourceLabels (source_string (source d)) = None
     <-> source d = RULE_ABSOLUTE \/ source d = AI_UNAVAILABLE
         \/ source d = AI_UNCERTAIN)
    /\ (o = SAFE_DENY -> sourceLabels (source_string (source d)) = None)
    /\ (o = SAFE_ALLOW -> sourceLabels (source_string (source d)) <> None)
    /\ (o = GREY_ZONE ->
        sourceLabels (source_string (source d)) <> None ->
        source d = AI_RECOMMENDED).
Proof.
  intros self o i d.
  assert (Hiff : forall s : Source,
             sourceLabels (source_string s) = None
             <-> s = RULE_ABSOLUTE \/ s = AI_UNAVAILABLE \/ s = AI_UNCERTAIN).
  { intros s. destruct s; cbn; split; intros H;
      try discriminate; try reflexivity;
      try (now left); try (now right; left); try (now right; right);
      destruct H as [H|[H|H]]; discriminate. }
  split; [apply Hiff|]. split; [|split].
  - intros ->. reflexivity.
  - intros ->. unfold d.
    destruct (safe_allow_cases self i) as [H|H];
      rewrite H; discriminate.
  - intros -> Hl. unfold d in *.
    destruct (source (combineDecision self GREY_ZONE i)) eqn:E;
      try reflexivity; try (exfalso; apply Hl; reflexivity).
    + exfalso. destruct i as [i|]; simpl in E; [|discriminate].
      destruct (analyzed i); simpl in E; [|discriminate].
      destruct (meetsConfidenceThreshold i); discriminate.
    + exfalso. destruct i as [i|]; simpl in E; [|discriminate].
      destruct (analyzed i); simpl in E; [|discriminate].
      destruct (meetsConfidenceThreshold i); discriminate.
Qed.

Lemma half_of_the_sources_have_a_label_witness :
  sourceLabels
    (source_string (source (combineDecision Sample.analyzer SAFE_DENY None)))
  = None.
Proof.
  destruct (half_of_the_sources_have_a_label Sample.analyzer SAFE_DENY None)
    as (_ & Hdeny & _).
  exact (Hdeny eq_refl).
Defined.
